(** * RemoteController: the generic connection engine

    A shallow embedding of [src/RemoteController/base_connection.py] (class
    [Connection]) and of [connections/wired_connection.py] (class
    [WiredConnection]).

    - [bytes] values are lists of [Byte.byte].
    - Python integers are [Z].  A Python float is an IEEE-754 binary64 and
      is carried as its 64-bit pattern; [struct]'s [f] format converts it
      to and from binary32 as the C conversions do (module [Float]).
    - Exceptions are values of [exn]; methods run in a state-and-error monad
      over the connection object, so that a mutation made before a raise
      stays made.
    - The abstract methods [_check] and [_send_data] are the fields of the
      class [Transport].
    - The two user callbacks and the transport's send are collaborators of
      the engine: every call made to one of them is recorded, with its
      arguments, in the [calls] field of the object. *)

From Stdlib Require Import ZArith List String Bool Lia QArith.
From Stdlib Require Import Strings.Byte.
Import ListNotations.
Local Open Scope Z_scope.

Set Implicit Arguments.

(** ** Exceptions *)

Inductive exn : Type :=
| AttributeError (attr : string)
| IndexError
| StructError                      (* struct.error *)
| OverflowError
| CancelledError                   (* asyncio.CancelledError *)
| PacketSizeTooBigException
| ConnectionDataFetchException (cause : exn) (message : string).

(** ** State and error monad *)

Definition M (S A : Type) : Type := S -> (exn + A) * S.

Definition ret {S A} (a : A) : M S A := fun s => (inr a, s).

Definition raise {S A} (e : exn) : M S A := fun s => (inl e, s).

Definition bind {S A B} (m : M S A) (k : A -> M S B) : M S B :=
  fun s =>
    match m s with
    | (inr a, s') => k a s'
    | (inl e, s') => (inl e, s')
    end.

Definition lift {S A} (r : exn + A) : M S A := fun s => (r, s).

Declare Scope py_scope.
Delimit Scope py_scope with py.
Notation "x <- m ;; k" := (bind m (fun x => k))
  (at level 100, m at next level, right associativity) : py_scope.
Notation "m ;; k" := (bind m (fun _ => k))
  (at level 100, right associativity) : py_scope.

(** ** Floats

    Bit patterns of binary64 (a Python float) and binary32 (the [f] field
    of a frame), and the two conversions [struct] goes through: the C
    casts [(float)x] and [(double)y], which round to nearest, ties to
    even, and deliver a signalling NaN quiet. *)

Module Float.

Definition sign64 (d : Z) : Z := (d / 2 ^ 63) mod 2.
Definition expo64 (d : Z) : Z := (d / 2 ^ 52) mod 2 ^ 11.
Definition frac64 (d : Z) : Z := d mod 2 ^ 52.

Definition sign32 (s : Z) : Z := (s / 2 ^ 31) mod 2.
Definition expo32 (s : Z) : Z := (s / 2 ^ 23) mod 2 ^ 8.
Definition frac32 (s : Z) : Z := s mod 2 ^ 23.

Definition is_inf64 (d : Z) : bool := (expo64 d =? 2047) && (frac64 d =? 0).
Definition is_inf32 (s : Z) : bool := (expo32 s =? 255) && (frac32 s =? 0).
Definition is_nan32 (s : Z) : bool := (expo32 s =? 255) && negb (frac32 s =? 0).

(** A NaN whose first fraction bit is clear. *)
Definition is_snan32 (s : Z) : bool := is_nan32 s && (frac32 s <? 2 ^ 22).

Definition quiet32 (s : Z) : Z := if is_snan32 s then s + 2 ^ 22 else s.

(** [n / 2^k], rounded to nearest, ties to even. *)
Definition round_shift (n k : Z) : Z :=
  let q := n / 2 ^ k in
  let r := n mod 2 ^ k in
  let half := 2 ^ (k - 1) in
  if r <? half then q
  else if half <? r then q + 1
  else if Z.even q then q else q + 1.

(** [(float)x].  A finite double of exponent field [e > 0] is
    [(2^52 + m) * 2^(e - 1075)]; the last place of the single nearest to it
    has exponent [max (e - 1046) (-149)], and a carry out of the rounded
    significand moves into the exponent field. *)
Definition single_of_double (d : Z) : Z :=
  let s := sign64 d in
  let e := expo64 d in
  let m := frac64 d in
  if e =? 2047 then
    if m =? 0 then s * 2 ^ 31 + 255 * 2 ^ 23
    else s * 2 ^ 31 + 255 * 2 ^ 23 + 2 ^ 22 + (m / 2 ^ 29) mod 2 ^ 22
  else if e =? 0 then s * 2 ^ 31
  else
    let q := Z.max (e - 1046) (-149) in
    let n := round_shift (2 ^ 52 + m) (q - (e - 1075)) in
    let bits := (q + 149) * 2 ^ 23 + n in
    if 255 * 2 ^ 23 <=? bits then s * 2 ^ 31 + 255 * 2 ^ 23
    else s * 2 ^ 31 + bits.

(** The double that has the value of the single [s]; a NaN keeps its
    fraction bits, signalling bit included. *)
Definition float32_value (s : Z) : Z :=
  let sg := sign32 s in
  let e := expo32 s in
  let m := frac32 s in
  if e =? 255 then sg * 2 ^ 63 + 2047 * 2 ^ 52 + m * 2 ^ 29
  else if e =? 0 then
    if m =? 0 then sg * 2 ^ 63
    else sg * 2 ^ 63 + (Z.log2 m + 874) * 2 ^ 52
         + (m - 2 ^ Z.log2 m) * 2 ^ (52 - Z.log2 m)
  else sg * 2 ^ 63 + (e + 896) * 2 ^ 52 + m * 2 ^ 29.

(** [(double)y]: exact, but for a signalling NaN, delivered quiet. *)
Definition double_of_single (s : Z) : Z := float32_value (quiet32 s).

End Float.

Import Float.

(** ** The [struct] module, for the formats the engine uses *)

Module Struct.

Definition bytes := list byte.

Definition Z_of_byte (b : byte) : Z := Z.of_N (Byte.to_N b).

Definition byte_of_Z (z : Z) : byte :=
  match Byte.of_N (Z.to_N (z mod 256)) with
  | Some b => b
  | None => x00
  end.

(** [n] bytes of [v], most significant first (the [>] byte order). *)
Fixpoint be_bytes (n : nat) (v : Z) : bytes :=
  match n with
  | O => []
  | S k => byte_of_Z (v / 256 ^ Z.of_nat k) :: be_bytes k v
  end.

Fixpoint be_int_from (acc : Z) (bs : bytes) : Z :=
  match bs with
  | [] => acc
  | b :: rest => be_int_from (acc * 256 + Z_of_byte b) rest
  end.

Definition be_int (bs : bytes) : Z := be_int_from 0 bs.

Definition in_range (v : Z) (bits : Z) : bool :=
  (0 <=? v) && (v <? 2 ^ bits).

(** [H]: unsigned 16-bit integer; out of range is [struct.error]. *)
Definition pack_H (v : Z) : exn + bytes :=
  if in_range v 16 then inr (be_bytes 2 v) else inl StructError.

(** [B]: unsigned 8-bit integer; out of range is [struct.error]. *)
Definition pack_B (v : Z) : exn + bytes :=
  if in_range v 8 then inr (be_bytes 1 v) else inl StructError.

(** [f]: the float is converted to binary32; a finite float that the
    conversion takes to an infinity is an [OverflowError]. *)
Definition pack_f (x : Z) : exn + bytes :=
  let y := single_of_double x in
  if is_inf32 y && negb (is_inf64 x) then inl OverflowError
  else inr (be_bytes 4 y).

(** [struct.pack(">H", h)] *)
Definition pack_fmt_H (h : Z) : exn + bytes := pack_H h.

(** [struct.pack(">H B f", h, b, f)]: fields are packed left to right,
    without padding. *)
Definition pack_fmt_HBf (h b f : Z) : exn + bytes :=
  match pack_H h with
  | inl e => inl e
  | inr hb =>
      match pack_B b with
      | inl e => inl e
      | inr bb =>
          match pack_f f with
          | inl e => inl e
          | inr fb => inr (hb ++ bb ++ fb)
          end
      end
  end.

(** [struct.unpack(">H", buf)]: the buffer must be exactly 2 bytes. *)
Definition unpack_fmt_H (buf : bytes) : exn + Z :=
  match buf with
  | [b0; b1] => inr (be_int [b0; b1])
  | _ => inl StructError
  end.

(** [struct.unpack(">H B f", buf)]: the buffer must be exactly 7 bytes; the
    [f] field comes back as a Python float. *)
Definition unpack_fmt_HBf (buf : bytes) : exn + (Z * Z * Z) :=
  match buf with
  | [b0; b1; b2; b3; b4; b5; b6] =>
      inr (be_int [b0; b1], be_int [b2], double_of_single (be_int [b3; b4; b5; b6]))
  | _ => inl StructError
  end.

End Struct.

Import Struct.

(** ** asyncio tasks

    [create_task] schedules the coroutine; its first step runs later.  From
    then on the task is pending, suspended where the coroutine awaits, until
    the coroutine returns or raises.  [cancel] on a task that has not ended
    requests cancellation, which is delivered as [CancelledError] where the
    coroutine stands: at its very start when it has not run yet, at its
    suspension point otherwise.  A [CancelledError] that leaves the
    coroutine makes the task cancelled.  On a task that has ended [cancel]
    changes nothing and answers [False]. *)

Inductive TaskState : Type :=
| Scheduled (must_cancel : bool)     (* created, the coroutine has not run *)
| Pending (must_cancel : bool)       (* suspended at an await *)
| Done (exception : option exn)      (* the coroutine returned or raised *)
| Cancelled.                         (* CancelledError left the coroutine *)

Record Task : Type := { name : string; state : TaskState }.

Definition create_task (task_name : string) : Task :=
  {| name := task_name; state := Scheduled false |}.

Definition cancel (t : Task) : bool * Task :=
  match state t with
  | Scheduled _ => (true, {| name := name t; state := Scheduled true |})
  | Pending _ => (true, {| name := name t; state := Pending true |})
  | Done _ | Cancelled => (false, t)
  end.

(** ** Calls made by the engine to its collaborators *)

Inductive call : Type :=
| OnCommandPayload (command throttle : Z)   (* self.on_command_payload(command, throttle) *)
| OnBinaryPayload (payload : bytes)         (* self.on_binary_payload(payload[2:]) *)
| SendData (data : bytes).                  (* self._send_data(data) *)

(** ** The abstract methods of [Connection]

    [T] is the state a concrete connection keeps for its link. *)

Class Transport (T : Type) : Type := {
  class_name : string;                                   (* self.__class__.__name__ *)
  _check : T -> (exn + option bytes) * T;
  _send_data : bytes -> T -> (exn + option bool) * T
}.

(** ** The [Connection] object

    [_queue] is [None] while the attribute is not bound on the object. *)

Record Connection (T : Type) : Type := {
  interval : Q;
  _queue : option (list bytes);
  _task : Task;
  link : T;
  calls : list call
}.

Section Engine.

Context {T : Type} `{Transport T}.

Definition set_queue (q : list bytes) (c : Connection T) : Connection T :=
  {| interval := interval c; _queue := Some q; _task := _task c;
     link := link c; calls := calls c |}.

Definition set_task (t : Task) (c : Connection T) : Connection T :=
  {| interval := interval c; _queue := _queue c; _task := t;
     link := link c; calls := calls c |}.

Definition set_link (l : T) (c : Connection T) : Connection T :=
  {| interval := interval c; _queue := _queue c; _task := _task c;
     link := l; calls := calls c |}.

Definition record_call (k : call) (c : Connection T) : Connection T :=
  {| interval := interval c; _queue := _queue c; _task := _task c;
     link := link c; calls := calls c ++ [k] |}.

(** [Connection.__init__]: binds [interval], the two callbacks and
    [_task]; the class body only annotates [_queue]. *)
Definition __init__ (interval0 : Q) (link0 : T) : Connection T :=
  {| interval := interval0;
     _queue := None;
     _task := create_task (class_name ++ " Connection Task");
     link := link0;
     calls := [] |}.

(** [self._queue] *)
Definition get_queue : M (Connection T) (list bytes) :=
  fun c =>
    match _queue c with
    | Some q => (inr q, c)
    | None => (inl (AttributeError "_queue"), c)
    end.

(** [self._queue.insert(0, payload)] *)
Definition queue_insert0 (payload : bytes) : M (Connection T) unit :=
  (q <- get_queue ;; fun c => (inr tt, set_queue (payload :: q) c))%py.

(** [self._queue.append(payload)] *)
Definition queue_append (payload : bytes) : M (Connection T) unit :=
  (q <- get_queue ;; fun c => (inr tt, set_queue (q ++ [payload]) c))%py.

(** [self._queue.pop(0)] *)
Definition queue_pop0 : M (Connection T) bytes :=
  (q <- get_queue ;;
   match q with
   | [] => raise IndexError
   | data :: rest => fun c => (inr data, set_queue rest c)
   end)%py.

(** The defaults [throttle = 0.0] (the float of pattern 0) and
    [send_immediately = False] are written out by the caller. *)
Definition send_command (command throttle : Z) (send_immediately : bool)
  : M (Connection T) unit :=
  (payload <- lift (pack_fmt_HBf 0xEEAF command throttle) ;;
   if send_immediately then queue_insert0 payload else queue_append payload)%py.

Definition send_binary_payload (binary_payload : bytes) (send_immediately : bool)
  : M (Connection T) unit :=
  (header <- lift (pack_fmt_H 0xEEAE) ;;
   let payload := header ++ binary_payload in
   if send_immediately then queue_insert0 payload else queue_append payload)%py.

(** The callbacks belong to the caller: a call to one is recorded and taken
    to return. *)
Definition call_on_command_payload (command throttle : Z) : M (Connection T) unit :=
  fun c => (inr tt, record_call (OnCommandPayload command throttle) c).

Definition call_on_binary_payload (payload : bytes) : M (Connection T) unit :=
  fun c => (inr tt, record_call (OnBinaryPayload payload) c).

Definition _handle_data (payload : bytes) : M (Connection T) unit :=
  (header <- lift (unpack_fmt_H (firstn 2 payload)) ;;
   if header =? 0xEEAF then
     fields <- lift (unpack_fmt_HBf payload) ;;
     let '(_, command, throttle) := fields in
     call_on_command_payload command throttle
   else if header =? 0xEEAE then
     call_on_binary_payload (skipn 2 payload)
   else ret tt)%py.

(** [if self._task: self._task.cancel()]: [_task] is bound by [__init__] to
    a task object, which is true. *)
Definition stop : M (Connection T) unit :=
  fun c => (inr tt, set_task (snd (cancel (_task c))) c).

(** [self._check()] *)
Definition call_check : M (Connection T) (option bytes) :=
  fun c => let (r, l) := _check (link c) in (r, set_link l c).

(** [self._send_data(data)] *)
Definition call_send_data (data : bytes) : M (Connection T) (option bool) :=
  fun c =>
    let c1 := record_call (SendData data) c in
    let (r, l) := _send_data data (link c1) in (r, set_link l c1).

(** Truth value of the probe's answer: [None] and [b""] are false. *)
Definition truthy (result : option bytes) : bool :=
  match result with
  | Some (_ :: _) => true
  | _ => false
  end.

Definition work_queue : M (Connection T) unit :=
  (data <- queue_pop0 ;; _ <- call_send_data data ;; ret tt)%py.

(** The statement of the loop body that follows the sleep. *)
Definition tick : M (Connection T) unit :=
  (result <- call_check ;;
   match result with
   | Some payload => if truthy result then _handle_data payload else work_queue
   | None => work_queue
   end)%py.

Definition finish (outcome : option exn) (c : Connection T) : Connection T :=
  set_task {| name := name (_task c); state := Done outcome |} c.

Definition set_state (st : TaskState) (c : Connection T) : Connection T :=
  set_task {| name := name (_task c); state := st |} c.

(** One step of the task that runs [_run].  The first step enters the
    [try] and the loop and suspends at the sleep; a cancellation requested
    before it is raised outside the [try] and cancels the task.  A later
    step resumes at the sleep, where a requested cancellation arrives
    inside the [try], runs the tick, and suspends at the next sleep. *)
Definition _run_iteration (c : Connection T) : Connection T :=
  match state (_task c) with
  | Scheduled false => set_state (Pending false) c
  | Scheduled true => set_state Cancelled c
  | Done _ | Cancelled => c
  | Pending true => finish None c
  | Pending false =>
      match tick c with
      | (inr _, c') => c'
      | (inl CancelledError, c') => finish None c'
      | (inl e, c') =>
          finish (Some (ConnectionDataFetchException e
                          (class_name ++ " connection could not process data"))) c'
      end
  end.

Fixpoint _run (turns : nat) (c : Connection T) : Connection T :=
  match turns with
  | O => c
  | S k => _run k (_run_iteration c)
  end.

End Engine.

(** ** [WiredConnection]: both overrides are [pass] *)

#[export] Instance WiredConnection : Transport unit := {
  class_name := "WiredConnection";
  _check := fun l => (inr None, l);
  _send_data := fun _ l => (inr None, l)
}.

Definition WiredConnection__init__ (interval0 : Q) (send_pin recieve_pin : Z)
  (ack_payload : bytes) : Connection unit :=
  __init__ interval0 tt.

(** ** A scripted link, used as a test double

    Its state is the list of answers the probe still has to give; sending
    always succeeds. *)

#[export] Instance ScriptedLink : Transport (list (option bytes)) := {
  class_name := "ScriptedLink";
  _check := fun l =>
    match l with
    | [] => (inr None, [])
    | answer :: rest => (inr answer, rest)
    end;
  _send_data := fun _ l => (inr (Some true), l)
}.

(** ** Vocabulary of the statements *)

Definition is_send (k : call) : bool :=
  match k with
  | SendData _ => true
  | _ => false
  end.

Definition is_dispatch (k : call) : bool :=
  match k with
  | OnCommandPayload _ _ | OnBinaryPayload _ => true
  | SendData _ => false
  end.

(** A call to one of the two send methods, with its arguments. *)
Inductive request : Type :=
| SendCommand (command throttle : Z)
| SendBinaryPayload (binary_payload : bytes).

(** The frame such a call builds before it touches the queue. *)
Definition frame_of (r : request) : exn + bytes :=
  match r with
  | SendCommand command throttle => pack_fmt_HBf 0xEEAF command throttle
  | SendBinaryPayload binary_payload =>
      match pack_fmt_H 0xEEAE with
      | inr header => inr (header ++ binary_payload)
      | inl e => inl e
      end
  end.

Section Requests.

Context {T : Type} `{Transport T}.

Definition send (r : request) (send_immediately : bool) : M (Connection T) unit :=
  match r with
  | SendCommand command throttle => send_command command throttle send_immediately
  | SendBinaryPayload binary_payload => send_binary_payload binary_payload send_immediately
  end.

(** The calls of a list, made one after the other with the same flag. *)
Fixpoint send_all (rs : list request) (send_immediately : bool) : M (Connection T) unit :=
  match rs with
  | [] => ret tt
  | r :: rest => (send r send_immediately ;; send_all rest send_immediately)%py
  end.

(** What the probe of the coming tick answers: data (a non-empty [bytes])
    or not. *)
Definition probe_has_data (c : Connection T) : bool :=
  match fst (_check (link c)) with
  | inr result => truthy result
  | inl _ => false
  end.

(** A link on which nothing arrives and every send returns. *)
Definition idle_link : Prop :=
  (forall l : T, exists result l', _check l = (inr result, l') /\ truthy result = false)
  /\ (forall (data : bytes) (l : T), exists sent l', _send_data data l = (inr sent, l')).

End Requests.

Arguments idle_link T {_}.

(** ** A link with fixed answers, used as a test double

    Its state is the pair of what every probe answers and what every send
    answers. *)

#[export] Instance FixedLink
  : Transport ((exn + option bytes) * (exn + option bool)) := {
  class_name := "FixedLink";
  _check := fun l => (fst l, l);
  _send_data := fun _ l => (snd l, l)
}.

(** ** Sequences of sends *)

Section Schedules.

Context {T : Type} `{Transport T}.

(** Sends made one after the other, each with its own flag. *)
Fixpoint send_each (items : list (request * bool)) : M (Connection T) unit :=
  match items with
  | [] => ret tt
  | (r, send_immediately) :: rest => (send r send_immediately ;; send_each rest)%py
  end.

End Schedules.

(** Of the frames [fs] of the sends [items], those sent with [flag], in the
    order of the sends. *)
Fixpoint frames_sent_with (flag : bool) (items : list (request * bool))
  (fs : list bytes) : list bytes :=
  match items, fs with
  | (_, send_immediately) :: items', f :: fs' =>
      if Bool.eqb send_immediately flag
      then f :: frames_sent_with flag items' fs'
      else frames_sent_with flag items' fs'
  | _, _ => []
  end.

(** The callback call that answers a send at the other end of the link: a
    throttle arrives as the float32 nearest to the one sent. *)
Definition delivered (r : request) : call :=
  match r with
  | SendCommand command throttle =>
      OnCommandPayload command (double_of_single (single_of_double throttle))
  | SendBinaryPayload binary_payload => OnBinaryPayload binary_payload
  end.

(** * Properties *)

Unset Implicit Arguments.

(** ** The codec *)

Lemma Z_of_byte_of_Z (z : Z) : Z_of_byte (byte_of_Z z) = z mod 256.
Proof.
  unfold Z_of_byte, byte_of_Z.
  assert (Hr : 0 <= z mod 256 < 256) by (apply Z.mod_pos_bound; lia).
  destruct (Byte.of_N (Z.to_N (z mod 256))) as [b|] eqn:E.
  - apply Byte.to_of_N in E. rewrite E. lia.
  - apply Byte.of_N_None_iff in E. lia.
Qed.

Lemma be_bytes_length (n : nat) (v : Z) : List.length (be_bytes n v) = n.
Proof. induction n; simpl; congruence. Qed.

Lemma be_int_from_be_bytes (n : nat) :
  forall acc v,
    be_int_from acc (be_bytes n v) = acc * 256 ^ Z.of_nat n + v mod 256 ^ Z.of_nat n.
Proof.
  induction n as [|k IH]; intros acc v; cbn [be_bytes be_int_from].
  - rewrite Z.pow_0_r, Z.mod_1_r. lia.
  - rewrite IH, Z_of_byte_of_Z.
    rewrite Nat2Z.inj_succ, Z.pow_succ_r by lia.
    assert (Hp : 0 < 256 ^ Z.of_nat k) by (apply Z.pow_pos_nonneg; lia).
    rewrite (Z.mul_comm 256 (256 ^ Z.of_nat k)).
    rewrite (Z.rem_mul_r v (256 ^ Z.of_nat k) 256) by lia.
    ring.
Qed.

Lemma be_int_be_bytes (n : nat) (v : Z) :
  0 <= v < 256 ^ Z.of_nat n -> be_int (be_bytes n v) = v.
Proof.
  intros Hv. unfold be_int. rewrite be_int_from_be_bytes.
  rewrite Z.mod_small by exact Hv. lia.
Qed.

Lemma be_int_app (xs ys : bytes) :
  forall acc, be_int_from acc (xs ++ ys) = be_int_from (be_int_from acc xs) ys.
Proof. induction xs as [|x xs IH]; intros acc; simpl; [reflexivity | apply IH]. Qed.

Lemma in_range_true (v bits : Z) :
  in_range v bits = true <-> 0 <= v < 2 ^ bits.
Proof. unfold in_range. rewrite andb_true_iff, Z.leb_le, Z.ltb_lt. tauto. Qed.

(** *** Floats *)

Lemma fields32 (s : Z) :
  0 <= s < 2 ^ 32 ->
  s = sign32 s * 2 ^ 31 + expo32 s * 2 ^ 23 + frac32 s
  /\ 0 <= sign32 s <= 1 /\ 0 <= expo32 s <= 255 /\ 0 <= frac32 s < 2 ^ 23.
Proof.
  intros Hs. unfold sign32, expo32, frac32.
  change (2 ^ 32) with 4294967296 in *. change (2 ^ 31) with 2147483648.
  change (2 ^ 23) with 8388608. change (2 ^ 8) with 256.
  Z.to_euclidean_division_equations. lia.
Qed.

Lemma fields32_of (sg e m : Z) :
  0 <= sg <= 1 -> 0 <= e <= 255 -> 0 <= m < 2 ^ 23 ->
  sign32 (sg * 2 ^ 31 + e * 2 ^ 23 + m) = sg
  /\ expo32 (sg * 2 ^ 31 + e * 2 ^ 23 + m) = e
  /\ frac32 (sg * 2 ^ 31 + e * 2 ^ 23 + m) = m.
Proof.
  intros Hsg He Hm. unfold sign32, expo32, frac32.
  change (2 ^ 31) with 2147483648. change (2 ^ 23) with 8388608 in *.
  change (2 ^ 8) with 256.
  Z.to_euclidean_division_equations. lia.
Qed.

Lemma fields64_of (sg e m : Z) :
  0 <= sg <= 1 -> 0 <= e <= 2047 -> 0 <= m < 2 ^ 52 ->
  sign64 (sg * 2 ^ 63 + e * 2 ^ 52 + m) = sg
  /\ expo64 (sg * 2 ^ 63 + e * 2 ^ 52 + m) = e
  /\ frac64 (sg * 2 ^ 63 + e * 2 ^ 52 + m) = m.
Proof.
  intros Hsg He Hm. unfold sign64, expo64, frac64.
  change (2 ^ 63) with 9223372036854775808. change (2 ^ 52) with 4503599627370496 in *.
  change (2 ^ 11) with 2048.
  Z.to_euclidean_division_equations. lia.
Qed.

Lemma round_shift_exact (n k : Z) :
  0 < k -> round_shift (n * 2 ^ k) k = n.
Proof.
  intros Hk. unfold round_shift.
  assert (Hp : 0 < 2 ^ k) by (apply Z.pow_pos_nonneg; lia).
  assert (Hh : 0 < 2 ^ (k - 1)) by (apply Z.pow_pos_nonneg; lia).
  rewrite Z.div_mul, Z.mod_mul by lia.
  destruct (0 <? 2 ^ (k - 1)) eqn:E; [reflexivity |].
  apply Z.ltb_ge in E. lia.
Qed.

Lemma single_of_float32_value (s : Z) :
  0 <= s < 2 ^ 32 -> single_of_double (float32_value s) = quiet32 s.
Proof.
  intros Hs. destruct (fields32 s Hs) as (Es & Hsg & He & Hm).
  unfold quiet32, is_snan32, is_nan32, float32_value.
  generalize dependent (frac32 s). generalize dependent (expo32 s).
  generalize dependent (sign32 s). intros sg Hsg e He m Es Hm.
  change (2 ^ 23) with 8388608 in Hm.
  destruct (e =? 255) eqn:E255; [apply Z.eqb_eq in E255 | apply Z.eqb_neq in E255].
  - destruct (fields64_of sg 2047 (m * 2 ^ 29)) as (F1 & F2 & F3);
      [lia | lia | change (2 ^ 29) with 536870912; change (2 ^ 52) with 4503599627370496; lia |].
    unfold single_of_double. rewrite F1, F2, F3.
    change (2047 =? 2047) with true. cbv iota.
    rewrite Z.div_mul by (change (2 ^ 29) with 536870912; lia).
    destruct (m =? 0) eqn:Em; [apply Z.eqb_eq in Em | apply Z.eqb_neq in Em].
    + assert (E0 : (m * 2 ^ 29 =? 0) = true) by (apply Z.eqb_eq; lia).
      rewrite E0. cbn [negb andb]. lia.
    + assert (E0 : (m * 2 ^ 29 =? 0) = false)
        by (apply Z.eqb_neq; change (2 ^ 29) with 536870912; lia).
      rewrite E0. cbn [negb andb].
      change (2 ^ 22) with 4194304. change (2 ^ 23) with 8388608. change (2 ^ 31) with 2147483648 in *.
      change (2 ^ 23) with 8388608 in Es.
      destruct (m <? 4194304) eqn:Eq; [apply Z.ltb_lt in Eq | apply Z.ltb_ge in Eq].
      * rewrite Z.mod_small by lia. lia.
      * assert (m mod 4194304 = m - 4194304)
          by (Z.to_euclidean_division_equations; lia).
        lia.
  - cbn [andb]. destruct (e =? 0) eqn:E0; [apply Z.eqb_eq in E0 | apply Z.eqb_neq in E0].
    + destruct (m =? 0) eqn:Em; [apply Z.eqb_eq in Em | apply Z.eqb_neq in Em].
      * destruct (fields64_of sg 0 0) as (F1 & F2 & F3); try lia.
        replace (sg * 2 ^ 63) with (sg * 2 ^ 63 + 0 * 2 ^ 52 + 0) by lia.
        unfold single_of_double. rewrite F1, F2.
        change (0 =? 2047) with false. change (0 =? 0) with true. cbv iota. lia.
      * pose proof (Z.log2_spec m ltac:(lia)) as [Hlo Hhi].
        set (k := Z.log2 m) in *.
        assert (Hk : 0 <= k <= 22).
        { split; [apply Z.log2_nonneg |].
          assert (k < 23); [| lia]. apply Z.log2_lt_pow2; [lia |].
          change (2 ^ 23) with 8388608. lia. }
        assert (Hsplit : 2 ^ k * 2 ^ (52 - k) = 2 ^ 52)
          by (rewrite <- Z.pow_add_r by lia; f_equal; lia).
        assert (Hj : 0 < 2 ^ (52 - k)) by (apply Z.pow_pos_nonneg; lia).
        assert (Hsucc : 2 ^ Z.succ k = 2 * 2 ^ k) by (apply Z.pow_succ_r; lia).
        destruct (fields64_of sg (k + 874) ((m - 2 ^ k) * 2 ^ (52 - k))) as (F1 & F2 & F3);
          [lia | lia | nia |].
        unfold single_of_double. rewrite F1, F2, F3.
        assert (Ea : (k + 874 =? 2047) = false) by (apply Z.eqb_neq; lia).
        assert (Eb : (k + 874 =? 0) = false) by (apply Z.eqb_neq; lia).
        rewrite Ea, Eb.
        replace (Z.max (k + 874 - 1046) (-149)) with (-149) by lia.
        replace (-149 - (k + 874 - 1075)) with (52 - k) by lia.
        replace (2 ^ 52 + (m - 2 ^ k) * 2 ^ (52 - k)) with (m * 2 ^ (52 - k)) by nia.
        rewrite round_shift_exact by lia.
        change (2 ^ 23) with 8388608 in *. change (2 ^ 31) with 2147483648 in *.
        destruct (255 * 8388608 <=? (-149 + 149) * 8388608 + m) eqn:Ec;
          [apply Z.leb_le in Ec; lia | lia].
    + destruct (fields64_of sg (e + 896) (m * 2 ^ 29)) as (F1 & F2 & F3);
        [lia | lia | change (2 ^ 29) with 536870912; change (2 ^ 52) with 4503599627370496; lia |].
      unfold single_of_double. rewrite F1, F2, F3.
      assert (Ea : (e + 896 =? 2047) = false) by (apply Z.eqb_neq; lia).
      assert (Eb : (e + 896 =? 0) = false) by (apply Z.eqb_neq; lia).
      rewrite Ea, Eb.
      replace (Z.max (e + 896 - 1046) (-149)) with (e - 150) by lia.
      replace (e - 150 - (e + 896 - 1075)) with 29 by lia.
      replace (2 ^ 52 + m * 2 ^ 29) with ((2 ^ 23 + m) * 2 ^ 29)
        by (change (2 ^ 52) with 4503599627370496; change (2 ^ 29) with 536870912;
            change (2 ^ 23) with 8388608; lia).
      rewrite round_shift_exact by lia.
      change (2 ^ 23) with 8388608 in *. change (2 ^ 31) with 2147483648 in *.
      destruct (255 * 8388608 <=? (e - 150 + 149) * 8388608 + (8388608 + m)) eqn:Ec;
        [apply Z.leb_le in Ec; lia | lia].
Qed.

Lemma quiet32_fields (s : Z) :
  0 <= s < 2 ^ 32 ->
  0 <= quiet32 s < 2 ^ 32 /\ is_snan32 (quiet32 s) = false
  /\ (is_inf32 (quiet32 s) = true -> is_snan32 s = false).
Proof.
  intros Hs. destruct (fields32 s Hs) as (Es & Hsg & He & Hm).
  unfold quiet32. destruct (is_snan32 s) eqn:Esn; [| auto].
  unfold is_snan32, is_nan32 in Esn.
  apply andb_true_iff in Esn as [Hnan Hlt]. apply andb_true_iff in Hnan as [He255 Hnz].
  apply Z.eqb_eq in He255. apply Z.ltb_lt in Hlt.
  apply negb_true_iff, Z.eqb_neq in Hnz.
  destruct (fields32_of (sign32 s) (expo32 s) (frac32 s + 2 ^ 22)) as (F1 & F2 & F3);
    [lia | lia | lia |].
  replace (s + 2 ^ 22)
    with (sign32 s * 2 ^ 31 + expo32 s * 2 ^ 23 + (frac32 s + 2 ^ 22)) by lia.
  split; [lia |].
  unfold is_snan32, is_nan32, is_inf32. rewrite F2, F3.
  split.
  - assert (E : (frac32 s + 2 ^ 22 <? 2 ^ 22) = false) by (apply Z.ltb_ge; lia).
    rewrite E. apply andb_false_r.
  - intros Hinf. apply andb_true_iff in Hinf as [_ Hz]. apply Z.eqb_eq in Hz. lia.
Qed.

Lemma quiet32_quiet32 (s : Z) : 0 <= s < 2 ^ 32 -> quiet32 (quiet32 s) = quiet32 s.
Proof.
  intros Hs. destruct (quiet32_fields s Hs) as (_ & Hq & _).
  unfold quiet32 at 1. rewrite Hq. reflexivity.
Qed.

Lemma float32_value_not_overflow (s : Z) :
  0 <= s < 2 ^ 32 ->
  is_inf32 (quiet32 s) && negb (is_inf64 (float32_value s)) = false.
Proof.
  intros Hs. destruct (is_inf32 (quiet32 s)) eqn:Einf; [| reflexivity].
  destruct (quiet32_fields s Hs) as (_ & _ & Hsn). specialize (Hsn Einf).
  unfold quiet32 in Einf. rewrite Hsn in Einf.
  destruct (fields32 s Hs) as (Es & Hsg & He & Hm).
  unfold is_inf32 in Einf. apply andb_true_iff in Einf as [E1 E2].
  unfold float32_value. rewrite E1. apply Z.eqb_eq in E2. rewrite E2.
  destruct (fields64_of (sign32 s) 2047 0) as (F1 & F2 & F3); try lia.
  unfold is_inf64. change (0 * 2 ^ 29) with 0. rewrite F2, F3. reflexivity.
Qed.

Lemma round_shift_nonneg (n k : Z) : 0 <= n -> 0 <= round_shift n k.
Proof.
  intros Hn. unfold round_shift.
  assert (0 <= n / 2 ^ k)
    by (apply Z_div_nonneg_nonneg; [exact Hn | apply Z.pow_nonneg; lia]).
  destruct (n mod 2 ^ k <? 2 ^ (k - 1)); [lia |].
  destruct (2 ^ (k - 1) <? n mod 2 ^ k); [lia |].
  destruct (Z.even (n / 2 ^ k)); lia.
Qed.

Lemma single_of_double_range (d : Z) : 0 <= single_of_double d < 2 ^ 32.
Proof.
  unfold single_of_double.
  assert (Hs : 0 <= sign64 d <= 1)
    by (unfold sign64; Z.to_euclidean_division_equations; lia).
  assert (He : 0 <= expo64 d < 2048)
    by (unfold expo64; change (2 ^ 11) with 2048; Z.to_euclidean_division_equations; lia).
  assert (Hm : 0 <= frac64 d)
    by (unfold frac64; change (2 ^ 52) with 4503599627370496;
        Z.to_euclidean_division_equations; lia).
  destruct (expo64 d =? 2047).
  - destruct (frac64 d =? 0); [lia |].
    assert (0 <= (frac64 d / 2 ^ 29) mod 2 ^ 22 < 2 ^ 22)
      by (apply Z.mod_pos_bound; lia).
    lia.
  - destruct (expo64 d =? 0); [lia |].
    set (q := Z.max (expo64 d - 1046) (-149)).
    pose proof (round_shift_nonneg (2 ^ 52 + frac64 d) (q - (expo64 d - 1075))
                  ltac:(lia)) as Hn.
    destruct (255 * 2 ^ 23 <=? (q + 149) * 2 ^ 23 + _) eqn:Ec;
      [lia | apply Z.leb_gt in Ec; nia].
Qed.

(** *** Command frames *)

Lemma pack_f_float32_value (float32 : Z) :
  0 <= float32 < 2 ^ 32 ->
  pack_f (float32_value float32) = inr (be_bytes 4 (quiet32 float32)).
Proof.
  intros Hs. unfold pack_f.
  rewrite (single_of_float32_value float32 Hs), (float32_value_not_overflow float32 Hs).
  reflexivity.
Qed.

(** The frame [send_command] builds for a throttle that has the value of
    a float32. *)
Lemma pack_fmt_HBf_ok (command float32 : Z) :
  0 <= command <= 255 -> 0 <= float32 < 2 ^ 32 ->
  pack_fmt_HBf 0xEEAF command (float32_value float32)
  = inr (be_bytes 2 0xEEAF ++ be_bytes 1 command ++ be_bytes 4 (quiet32 float32)).
Proof.
  intros Hc Hs. unfold pack_fmt_HBf, pack_H, pack_B.
  assert (E1 : in_range 0xEEAF 16 = true) by reflexivity.
  assert (E2 : in_range command 8 = true) by (apply in_range_true; simpl; lia).
  rewrite E1, E2, (pack_f_float32_value float32 Hs). reflexivity.
Qed.

(** The frame [send_command] builds for any throttle, when it builds one. *)
Lemma pack_fmt_HBf_inv (command throttle : Z) (frame : bytes) :
  pack_fmt_HBf 0xEEAF command throttle = inr frame ->
  0 <= command <= 255
  /\ frame = be_bytes 2 0xEEAF ++ be_bytes 1 command
             ++ be_bytes 4 (single_of_double throttle).
Proof.
  unfold pack_fmt_HBf, pack_H, pack_B, pack_f.
  change (in_range 0xEEAF 16) with true. cbv iota.
  destruct (in_range command 8) eqn:Ec; [| discriminate].
  destruct (is_inf32 (single_of_double throttle) && negb (is_inf64 throttle));
    [discriminate |].
  intros Hf. apply in_range_true in Ec. simpl in Ec. split; [lia | congruence].
Qed.

Lemma unpack_pack_fmt_HBf (command single : Z) :
  0 <= command <= 255 -> 0 <= single < 2 ^ 32 ->
  unpack_fmt_HBf (be_bytes 2 0xEEAF ++ be_bytes 1 command ++ be_bytes 4 single)
  = inr (0xEEAF, command, double_of_single single).
Proof.
  intros Hc Ht. cbn [be_bytes app unpack_fmt_HBf].
  change [byte_of_Z (command / 256 ^ Z.of_nat 0)] with (be_bytes 1 command).
  change [byte_of_Z (single / 256 ^ Z.of_nat 3); byte_of_Z (single / 256 ^ Z.of_nat 2);
          byte_of_Z (single / 256 ^ Z.of_nat 1); byte_of_Z (single / 256 ^ Z.of_nat 0)]
    with (be_bytes 4 single).
  rewrite (be_int_be_bytes 1 command) by (simpl; lia).
  rewrite (be_int_be_bytes 4 single) by (exact Ht).
  reflexivity.
Qed.

(** ** The send queue *)

Ltac unfold_py :=
  unfold work_queue, queue_pop0, queue_insert0, queue_append, get_queue,
    call_check, call_send_data, call_on_command_payload, call_on_binary_payload,
    bind, lift, ret, raise in *.

Section QueueFacts.

Context {T : Type} `{Transport T}.

Lemma set_queue_same (c : Connection T) (q : list bytes) :
  _queue c = Some q -> set_queue q c = c.
Proof. destruct c; simpl; intros ->; reflexivity. Qed.

(** With [_queue] bound to a list, a send whose frame packs returns and puts
    the frame at the front or at the end. *)
Lemma send_bound (c : Connection T) (q : list bytes) (r : request) (frame : bytes)
  (send_immediately : bool) :
  _queue c = Some q ->
  frame_of r = inr frame ->
  send r send_immediately c
  = (inr tt, set_queue (if send_immediately then frame :: q else q ++ [frame]) c).
Proof.
  intros Hq Hf. destruct r as [command throttle | binary_payload];
    unfold send, send_command, send_binary_payload; unfold_py;
    unfold frame_of in Hf.
  - rewrite Hf. destruct send_immediately; rewrite Hq; reflexivity.
  - assert (E : pack_fmt_H 0xEEAE = inr [xee; xae]) by reflexivity.
    rewrite E in Hf |- *. injection Hf as <-.
    destruct send_immediately; rewrite Hq; reflexivity.
Qed.

Lemma send_all_later (rs : list request) :
  forall (fs : list bytes) (c : Connection T) (q : list bytes),
    Forall2 (fun r f => frame_of r = inr f) rs fs ->
    _queue c = Some q ->
    send_all rs false c = (inr tt, set_queue (q ++ fs) c).
Proof.
  induction rs as [|r rs IH]; intros fs c q Hfs Hq; inversion Hfs; subst; simpl.
  - rewrite app_nil_r, set_queue_same by exact Hq. reflexivity.
  - unfold bind. erewrite send_bound by eassumption.
    erewrite IH; [| eassumption | reflexivity].
    rewrite <- app_assoc. reflexivity.
Qed.

Lemma send_all_immediately (rs : list request) :
  forall (fs : list bytes) (c : Connection T) (q : list bytes),
    Forall2 (fun r f => frame_of r = inr f) rs fs ->
    _queue c = Some q ->
    send_all rs true c = (inr tt, set_queue (rev fs ++ q) c).
Proof.
  induction rs as [|r rs IH]; intros fs c q Hfs Hq; inversion Hfs; subst; simpl.
  - rewrite set_queue_same by exact Hq. reflexivity.
  - unfold bind. erewrite send_bound by eassumption.
    erewrite IH; [| eassumption | reflexivity].
    rewrite <- app_assoc. reflexivity.
Qed.

(** A turn of the loop on an idle link hands the head of the queue to the
    transport. *)
Lemma work_turn (c : Connection T) (data : bytes) (q : list bytes) :
  idle_link T ->
  _queue c = Some (data :: q) ->
  state (_task c) = Pending false ->
  exists l, _run_iteration c = set_link l (record_call (SendData data) (set_queue q c)).
Proof.
  intros [Hprobe Hsend] Hq Hst. unfold _run_iteration, tick. rewrite Hst. unfold_py.
  destruct (Hprobe (link c)) as (result & l1 & E1 & Hfalse). rewrite E1.
  destruct (Hsend data l1) as (sent & l2 & E2).
  exists l2.
  destruct result as [[|b rest]|]; try discriminate Hfalse;
    simpl; rewrite Hq; simpl; rewrite E2; reflexivity.
Qed.

Lemma drain (q : list bytes) :
  forall c : Connection T,
    idle_link T ->
    _queue c = Some q ->
    state (_task c) = Pending false ->
    calls (_run (List.length q) c) = calls c ++ map SendData q
    /\ _queue (_run (List.length q) c) = Some []
    /\ _task (_run (List.length q) c) = _task c.
Proof.
  induction q as [|data q IH]; intros c Hidle Hq Hst.
  - simpl. rewrite app_nil_r. auto.
  - destruct (work_turn c data q Hidle Hq Hst) as [l E]. cbn [List.length _run]. rewrite E.
    destruct (IH (set_link l (record_call (SendData data) (set_queue q c))) Hidle)
      as (Hc & Hqe & Ht); [reflexivity | exact Hst |].
    rewrite Hc, Hqe, Ht. simpl. rewrite <- app_assoc. auto.
Qed.

End QueueFacts.

(** ** The loop *)

Section LoopFacts.

Context {T : Type} `{Transport T}.

Lemma run_done (n : nat) :
  forall (c : Connection T) (outcome : option exn),
    state (_task c) = Done outcome -> _run n c = c.
Proof.
  induction n as [|n IH]; intros c outcome Hst; simpl; [reflexivity |].
  unfold _run_iteration. rewrite Hst. eapply IH, Hst.
Qed.

End LoopFacts.

(** ** Sending on a constructed connection *)

(** C1 (the code departs from the claim).  The claim: for valid inputs
    [send_command] and [send_binary_payload] on a constructed connection
    never raise and put the frame on the queue.  The code: [__init__] never
    binds [_queue], so on the object it returns both methods raise
    [AttributeError] for every valid input (a command in 0..255 with the
    float of any float32, any payload) and leave the object as it was. *)
Theorem send_on_constructed_connection_raises :
  forall (T : Type) (H : Transport T) (interval0 : Q) (link0 : T)
         (command float32 : Z) (binary_payload : bytes) (send_immediately : bool),
    0 <= command <= 255 ->
    0 <= float32 < 2 ^ 32 ->
    send_command command (float32_value float32) send_immediately
      (__init__ interval0 link0)
    = (inl (AttributeError "_queue"), __init__ interval0 link0)
    /\ send_binary_payload binary_payload send_immediately (__init__ interval0 link0)
       = (inl (AttributeError "_queue"), __init__ interval0 link0).
Proof.
  intros T H interval0 link0 command float32 binary_payload send_immediately Hc Ht.
  unfold send_command, send_binary_payload. unfold_py.
  rewrite (pack_fmt_HBf_ok command float32 Hc Ht).
  destruct send_immediately; split; reflexivity.
Qed.

Lemma send_on_constructed_connection_raises_witness :
  send_command 5 0x3FE8000000000000 false (WiredConnection__init__ (1 # 100) 1 2 [])
  = (inl (AttributeError "_queue"), WiredConnection__init__ (1 # 100) 1 2 [])
  /\ send_binary_payload [x01; x02] false (WiredConnection__init__ (1 # 100) 1 2 [])
     = (inl (AttributeError "_queue"), WiredConnection__init__ (1 # 100) 1 2 []).
Proof.
  apply (@send_on_constructed_connection_raises unit WiredConnection (1 # 100) tt
           5 0x3F400000 [x01; x02] false); lia.
Defined.

(** ** A tick with nothing to receive and nothing to send *)

(** C2 (the code departs from the claim).  The claim: such a tick sends
    nothing, fails with nothing, and the loop goes on.  The code: the queue
    is popped without looking at its length, so the tick raises
    [IndexError]; [_run] wraps it in [ConnectionDataFetchException] and the
    task is over: no later turn does anything.  Nothing is sent, as
    claimed. *)
Theorem idle_tick_on_empty_queue_ends_the_loop :
  forall (T : Type) (H : Transport T) (c : Connection T)
         (result : option bytes) (l : T) (n : nat),
    state (_task c) = Pending false ->
    _queue c = Some [] ->
    _check (link c) = (inr result, l) ->
    truthy result = false ->
    tick c = (inl IndexError, set_link l c)
    /\ _run (S n) c
       = finish (Some (ConnectionDataFetchException IndexError
                         (@class_name T H ++ " connection could not process data")))
           (set_link l c)
    /\ calls (_run (S n) c) = calls c.
Proof.
  intros T H c result l n Hst Hq Hprobe Hfalse.
  assert (Htick : tick c = (inl IndexError, set_link l c)).
  { unfold tick. unfold_py. rewrite Hprobe.
    destruct result as [[|b rest]|]; try discriminate Hfalse;
      simpl; rewrite Hq; reflexivity. }
  assert (Hturn : _run_iteration c
                  = finish (Some (ConnectionDataFetchException IndexError
                                    (@class_name T H ++ " connection could not process data")))
                      (set_link l c)).
  { unfold _run_iteration. rewrite Hst, Htick. reflexivity. }
  split; [exact Htick |].
  cbn [_run]. rewrite Hturn.
  erewrite run_done by reflexivity. split; reflexivity.
Qed.

Lemma idle_tick_on_empty_queue_ends_the_loop_witness :
  tick (set_queue [] (_run 1 (WiredConnection__init__ (1 # 100) 1 2 [])))
  = (inl IndexError, set_link tt (set_queue [] (_run 1 (WiredConnection__init__ (1 # 100) 1 2 []))))
  /\ _run 1 (set_queue [] (_run 1 (WiredConnection__init__ (1 # 100) 1 2 [])))
     = finish (Some (ConnectionDataFetchException IndexError
                       (@class_name unit WiredConnection ++ " connection could not process data")))
         (set_link tt (set_queue [] (_run 1 (WiredConnection__init__ (1 # 100) 1 2 []))))
  /\ calls (_run 1 (set_queue [] (_run 1 (WiredConnection__init__ (1 # 100) 1 2 []))))
     = calls (set_queue [] (_run 1 (WiredConnection__init__ (1 # 100) 1 2 []))).
Proof.
  apply (@idle_tick_on_empty_queue_ends_the_loop unit WiredConnection
           (set_queue [] (_run 1 (WiredConnection__init__ (1 # 100) 1 2 []))) None tt 0%nat);
    reflexivity.
Defined.

(** ** Round trip of a command frame *)

(** C3, as the claim words it, fails for a signalling NaN.  The float of
    pattern 7FF4000000000000 has the value of the float32 of pattern
    7FA00000; [send_command] queues it as the bytes 7F E0 00 00, quiet bit
    set, and [_handle_data] on that frame calls the callback with the float
    of pattern 7FFC000000000000, which is not the float that was sent. *)
Lemma signalling_nan_throttle_comes_back_quiet :
  float32_value 0x7FA00000 = 0x7FF4000000000000
  /\ send_command 5 0x7FF4000000000000 false
       (set_queue [] (WiredConnection__init__ (1 # 100) 1 2 []))
     = (inr tt, set_queue [[xee; xaf; x05; x7f; xe0; x00; x00]]
                  (WiredConnection__init__ (1 # 100) 1 2 []))
  /\ _handle_data [xee; xaf; x05; x7f; xe0; x00; x00]
       (WiredConnection__init__ (1 # 100) 1 2 [])
     = (inr tt, record_call (OnCommandPayload 5 0x7FFC000000000000)
                  (WiredConnection__init__ (1 # 100) 1 2 []))
  /\ OnCommandPayload 5 0x7FFC000000000000 <> OnCommandPayload 5 0x7FF4000000000000.
Proof.
  split; [reflexivity |]. split; [reflexivity |]. split; [reflexivity | discriminate].
Qed.

(** C3, amended.  For a command in 0..255 and a throttle that has the
    value of a float32 other than a signalling NaN: [send_command] on a
    bound queue returns and queues a frame of 7 bytes; that frame unpacks
    to the same command and to the very float that was sent; and
    [_handle_data] on it returns after exactly one call,
    [on_command_payload(command, throttle)]. *)
Theorem command_frame_round_trip :
  forall (T : Type) (H : Transport T) (sender receiver : Connection T)
         (q : list bytes) (command float32 : Z) (send_immediately : bool),
    0 <= command <= 255 ->
    0 <= float32 < 2 ^ 32 ->
    is_snan32 float32 = false ->
    _queue sender = Some q ->
    exists frame : bytes,
      send_command command (float32_value float32) send_immediately sender
      = (inr tt,
         set_queue (if send_immediately then frame :: q else q ++ [frame]) sender)
      /\ List.length frame = 7%nat
      /\ unpack_fmt_HBf frame = inr (0xEEAF, command, float32_value float32)
      /\ _handle_data frame receiver
         = (inr tt,
            record_call (OnCommandPayload command (float32_value float32)) receiver).
Proof.
  intros T H sender receiver q command float32 send_immediately Hc Hs Hquiet Hq.
  assert (Hsame : quiet32 float32 = float32) by (unfold quiet32; rewrite Hquiet; reflexivity).
  assert (Hback : double_of_single float32 = float32_value float32)
    by (unfold double_of_single; rewrite Hsame; reflexivity).
  pose proof (pack_fmt_HBf_ok command float32 Hc Hs) as Hpack. rewrite Hsame in Hpack.
  pose proof (unpack_pack_fmt_HBf command float32 Hc Hs) as Hunpack.
  rewrite Hback in Hunpack.
  exists (be_bytes 2 0xEEAF ++ be_bytes 1 command ++ be_bytes 4 float32).
  split.
  - unfold send_command. unfold_py. rewrite Hpack.
    destruct send_immediately; rewrite Hq; reflexivity.
  - split; [reflexivity |]. split; [exact Hunpack |].
    unfold _handle_data. unfold_py. rewrite Hunpack. reflexivity.
Qed.

Lemma command_frame_round_trip_witness :
  exists frame : bytes,
    send_command 5 0x3FE8000000000000 true
      (set_queue [[x07]] (WiredConnection__init__ (1 # 100) 1 2 []))
    = (inr tt,
       set_queue (if true then frame :: [[x07]] else [[x07]] ++ [frame])
         (set_queue [[x07]] (WiredConnection__init__ (1 # 100) 1 2 [])))
    /\ List.length frame = 7%nat
    /\ unpack_fmt_HBf frame = inr (0xEEAF, 5, 0x3FE8000000000000)
    /\ _handle_data frame (WiredConnection__init__ (1 # 100) 1 2 [])
       = (inr tt, record_call (OnCommandPayload 5 0x3FE8000000000000)
                    (WiredConnection__init__ (1 # 100) 1 2 [])).
Proof.
  apply (@command_frame_round_trip unit WiredConnection
           (set_queue [[x07]] (WiredConnection__init__ (1 # 100) 1 2 []))
           (WiredConnection__init__ (1 # 100) 1 2 [])
           [[x07]] 5 0x3F400000 true); try lia; reflexivity.
Defined.

(** ** Order of transmission *)

(** C4.  On a connection whose queue is bound and empty, over an idle
    link: three sends A, B, C without [send_immediately] are transmitted by
    the next three ticks as A, B, C; A and B without the flag followed by C
    with it are transmitted as C, A, B. *)
Theorem queue_ordering :
  forall (T : Type) (H : Transport T) (c : Connection T)
         (ra rb rc : request) (fa fb fc : bytes),
    idle_link T ->
    _queue c = Some [] ->
    state (_task c) = Pending false ->
    frame_of ra = inr fa ->
    frame_of rb = inr fb ->
    frame_of rc = inr fc ->
    calls (_run 3 (snd ((send ra false ;; send rb false ;; send rc false)%py c)))
    = calls c ++ [SendData fa; SendData fb; SendData fc]
    /\ calls (_run 3 (snd ((send ra false ;; send rb false ;; send rc true)%py c)))
       = calls c ++ [SendData fc; SendData fa; SendData fb].
Proof.
  intros T H c ra rb rc fa fb fc Hidle Hq Hst Ha Hb Hc.
  unfold bind.
  rewrite (send_bound c [] ra fa false Hq Ha). cbn [app].
  rewrite (send_bound (set_queue [fa] c) [fa] rb fb false eq_refl Hb). cbn [app].
  split.
  - rewrite (send_bound (set_queue [fa; fb] (set_queue [fa] c)) [fa; fb] rc fc false
               eq_refl Hc).
    exact (proj1 (drain [fa; fb; fc] (set_queue [fa; fb; fc] c) Hidle eq_refl Hst)).
  - rewrite (send_bound (set_queue [fa; fb] (set_queue [fa] c)) [fa; fb] rc fc true
               eq_refl Hc).
    exact (proj1 (drain [fc; fa; fb] (set_queue [fc; fa; fb] c) Hidle eq_refl Hst)).
Qed.

Lemma wired_link_is_idle : idle_link unit.
Proof.
  split.
  - intros l. exists None, l. split; reflexivity.
  - intros data l. exists None, l. reflexivity.
Qed.

Lemma queue_ordering_witness :
  calls (_run 3 (snd ((send (SendCommand 1 0) false ;;
                       send (SendBinaryPayload [x01; x02]) false ;;
                       send (SendCommand 3 0x3FF0000000000000) false)%py
                        (set_queue [] (_run 1 (WiredConnection__init__ (1 # 100) 1 2 []))))))
  = calls (set_queue [] (_run 1 (WiredConnection__init__ (1 # 100) 1 2 [])))
    ++ [SendData [xee; xaf; x01; x00; x00; x00; x00];
        SendData [xee; xae; x01; x02];
        SendData [xee; xaf; x03; x3f; x80; x00; x00]]
  /\ calls (_run 3 (snd ((send (SendCommand 1 0) false ;;
                          send (SendBinaryPayload [x01; x02]) false ;;
                          send (SendCommand 3 0x3FF0000000000000) true)%py
                           (set_queue [] (_run 1 (WiredConnection__init__ (1 # 100) 1 2 []))))))
     = calls (set_queue [] (_run 1 (WiredConnection__init__ (1 # 100) 1 2 [])))
       ++ [SendData [xee; xaf; x03; x3f; x80; x00; x00];
           SendData [xee; xaf; x01; x00; x00; x00; x00];
           SendData [xee; xae; x01; x02]].
Proof.
  apply (@queue_ordering unit WiredConnection
           (set_queue [] (_run 1 (WiredConnection__init__ (1 # 100) 1 2 [])))
           (SendCommand 1 0) (SendBinaryPayload [x01; x02]) (SendCommand 3 0x3FF0000000000000));
    try reflexivity.
  exact wired_link_is_idle.
Defined.

(** C5, as the claim words it, fails: of two frames both sent with
    [send_immediately], the one sent last is transmitted first. *)
Lemma immediate_frames_are_not_fifo :
  calls (_run 2 (snd ((send (SendCommand 1 0) true ;; send (SendCommand 2 0) true)%py
                        (set_queue [] (_run 1 (WiredConnection__init__ (1 # 100) 1 2 []))))))
  = [SendData [xee; xaf; x02; x00; x00; x00; x00];
     SendData [xee; xaf; x01; x00; x00; x00; x00]]
  /\ calls (_run 2 (snd ((send (SendCommand 1 0) true ;; send (SendCommand 2 0) true)%py
                           (set_queue [] (_run 1 (WiredConnection__init__ (1 # 100) 1 2 []))))))
     <> [SendData [xee; xaf; x01; x00; x00; x00; x00];
         SendData [xee; xaf; x02; x00; x00; x00; x00]].
Proof. split; [reflexivity | discriminate]. Qed.

(** C5, amended.  On a connection whose queue is bound, over an idle link
    and with no tick in between: frames sent without [send_immediately]
    are transmitted, after what the queue already held, in the order they
    were sent; frames sent with [send_immediately] are transmitted first
    and in the reverse of the order they were sent. *)
Theorem same_priority_ordering :
  forall (T : Type) (H : Transport T) (c : Connection T)
         (q : list bytes) (rs : list request) (fs : list bytes),
    idle_link T ->
    _queue c = Some q ->
    state (_task c) = Pending false ->
    Forall2 (fun r f => frame_of r = inr f) rs fs ->
    calls (_run (List.length (q ++ fs)) (snd (send_all rs false c)))
    = calls c ++ map SendData q ++ map SendData fs
    /\ calls (_run (List.length (rev fs ++ q)) (snd (send_all rs true c)))
       = calls c ++ map SendData (rev fs) ++ map SendData q.
Proof.
  intros T H c q rs fs Hidle Hq Hst Hfs.
  rewrite (send_all_later rs fs c q Hfs Hq), (send_all_immediately rs fs c q Hfs Hq).
  rewrite <- !map_app. split.
  - exact (proj1 (drain (q ++ fs) (set_queue (q ++ fs) c) Hidle eq_refl Hst)).
  - exact (proj1 (drain (rev fs ++ q) (set_queue (rev fs ++ q) c) Hidle eq_refl Hst)).
Qed.

Lemma same_priority_ordering_witness :
  calls (_run (List.length ([[x00]] ++ [[xee; xaf; x01; x00; x00; x00; x00];
                                      [xee; xaf; x02; x00; x00; x00; x00]]))
           (snd (send_all [SendCommand 1 0; SendCommand 2 0] false
                   (set_queue [[x00]] (_run 1 (WiredConnection__init__ (1 # 100) 1 2 []))))))
  = calls (set_queue [[x00]] (_run 1 (WiredConnection__init__ (1 # 100) 1 2 [])))
    ++ map SendData [[x00]]
    ++ map SendData [[xee; xaf; x01; x00; x00; x00; x00];
                     [xee; xaf; x02; x00; x00; x00; x00]]
  /\ calls (_run (List.length (rev [[xee; xaf; x01; x00; x00; x00; x00];
                                    [xee; xaf; x02; x00; x00; x00; x00]] ++ [[x00]]))
              (snd (send_all [SendCommand 1 0; SendCommand 2 0] true
                      (set_queue [[x00]] (_run 1 (WiredConnection__init__ (1 # 100) 1 2 []))))))
     = calls (set_queue [[x00]] (_run 1 (WiredConnection__init__ (1 # 100) 1 2 [])))
       ++ map SendData (rev [[xee; xaf; x01; x00; x00; x00; x00];
                             [xee; xaf; x02; x00; x00; x00; x00]])
       ++ map SendData [[x00]].
Proof.
  apply (@same_priority_ordering unit WiredConnection
           (set_queue [[x00]] (_run 1 (WiredConnection__init__ (1 # 100) 1 2 [])))
           [[x00]] [SendCommand 1 0; SendCommand 2 0]
           [[xee; xaf; x01; x00; x00; x00; x00]; [xee; xaf; x02; x00; x00; x00; x00]]).
  - exact wired_link_is_idle.
  - reflexivity.
  - reflexivity.
  - repeat constructor.
Defined.

(** ** What one tick calls *)

Section TickFacts.

Context {T : Type} `{Transport T}.

Lemma unpack_fmt_HBf_wrong_length (buf : bytes) :
  List.length buf <> 7%nat -> unpack_fmt_HBf buf = inl StructError.
Proof.
  intros Hlen.
  do 8 (destruct buf as [|? buf]; [reflexivity || (exfalso; apply Hlen; reflexivity) |]).
  reflexivity.
Qed.

(** [_handle_data] calls at most the callbacks, never the transport. *)
Lemma handle_data_calls (payload : bytes) (c : Connection T) :
  exists new,
    calls (snd (_handle_data payload c)) = calls c ++ new
    /\ existsb is_send new = false.
Proof.
  unfold _handle_data. unfold_py.
  destruct (unpack_fmt_H (firstn 2 payload)) as [e | header].
  - exists []. simpl. rewrite app_nil_r. auto.
  - destruct (header =? 0xEEAF).
    + destruct (unpack_fmt_HBf payload) as [e | [[magic command] throttle]].
      * exists []. simpl. rewrite app_nil_r. auto.
      * exists [OnCommandPayload command throttle]. split; reflexivity.
    + destruct (header =? 0xEEAE).
      * exists [OnBinaryPayload (skipn 2 payload)]. split; reflexivity.
      * exists []. simpl. rewrite app_nil_r. auto.
Qed.

(** Working the queue calls at most the transport, never a callback. *)
Lemma work_queue_calls (c : Connection T) :
  exists new,
    calls (snd (work_queue c)) = calls c ++ new
    /\ existsb is_dispatch new = false.
Proof.
  unfold_py.
  destruct (_queue c) as [[|data q]|] eqn:Hq.
  - exists []. simpl. rewrite app_nil_r. auto.
  - exists [SendData data]. simpl.
    destruct (_send_data data (link c)) as [[e | sent] l]; split; reflexivity.
  - exists []. simpl. rewrite app_nil_r. auto.
Qed.

Lemma tick_without_data (c : Connection T) (result : option bytes) (l : T) :
  _check (link c) = (inr result, l) ->
  truthy result = false ->
  tick c = work_queue (set_link l c).
Proof.
  intros Hprobe Hfalse. unfold tick, bind, call_check. rewrite Hprobe.
  destruct result as [[|b rest]|]; try discriminate Hfalse; reflexivity.
Qed.

Lemma tick_with_data (c : Connection T) (payload : bytes) (l : T) :
  _check (link c) = (inr (Some payload), l) ->
  payload <> [] ->
  tick c = _handle_data payload (set_link l c).
Proof.
  intros Hprobe Hne. unfold tick, bind, call_check. rewrite Hprobe.
  destruct payload as [|b rest]; [contradiction | reflexivity].
Qed.

End TickFacts.

(** C6.  The calls one tick makes are never both a send and a dispatch:
    when the probe reports data the tick does not call the transport's
    send, and when it reports none the tick calls no callback. *)
Theorem half_duplex_exclusivity :
  forall (T : Type) (H : Transport T) (c : Connection T),
  exists new : list call,
    calls (snd (tick c)) = calls c ++ new
    /\ existsb is_send new && existsb is_dispatch new = false
    /\ probe_has_data c && existsb is_send new = false
    /\ negb (probe_has_data c) && existsb is_dispatch new = false.
Proof.
  intros T H c. unfold probe_has_data.
  destruct (_check (link c)) as [[e | result] l] eqn:Hprobe.
  - exists []. unfold tick, bind, call_check. rewrite Hprobe. simpl.
    rewrite app_nil_r. auto.
  - cbn [fst]. destruct (truthy result) eqn:Htruth.
    + destruct result as [[|b rest]|]; try discriminate Htruth.
      rewrite (tick_with_data c (b :: rest) l Hprobe) by discriminate.
      destruct (handle_data_calls (b :: rest) (set_link l c)) as (new & Hcalls & Hsend).
      exists new. rewrite Hcalls, Hsend. auto.
    + rewrite (tick_without_data c result l Hprobe Htruth).
      destruct (work_queue_calls (set_link l c)) as (new & Hcalls & Hdisp).
      exists new. rewrite Hcalls, Hdisp. simpl. rewrite andb_false_r. auto.
Qed.

(** ** Frames the engine cannot dispatch *)

(** C7.  A received frame that starts with the command magic EE AF but is
    not 7 bytes long is not accepted: [_handle_data] raises [struct.error]
    before any callback is called, and the loop reports it by ending with
    [ConnectionDataFetchException] instead of going on. *)
Theorem malformed_command_frame_is_reported :
  forall (T : Type) (H : Transport T) (c : Connection T) (payload : bytes) (l : T),
    firstn 2 payload = [xee; xaf] ->
    List.length payload <> 7%nat ->
    state (_task c) = Pending false ->
    _check (link c) = (inr (Some payload), l) ->
    _handle_data payload c = (inl StructError, c)
    /\ _run_iteration c
       = finish (Some (ConnectionDataFetchException StructError
                         (@class_name T H ++ " connection could not process data")))
           (set_link l c)
    /\ calls (_run_iteration c) = calls c.
Proof.
  intros T H c payload l Hmagic Hlen Hst Hprobe.
  assert (Hhandle : forall c' : Connection T,
             _handle_data payload c' = (inl StructError, c')).
  { intros c'. unfold _handle_data. unfold_py. rewrite Hmagic.
    change (unpack_fmt_H [xee; xaf]) with (@inr exn Z 0xEEAF).
    rewrite (unpack_fmt_HBf_wrong_length payload Hlen). reflexivity. }
  assert (Hne : payload <> []) by (intros ->; discriminate Hmagic).
  assert (Hturn : _run_iteration c
                  = finish (Some (ConnectionDataFetchException StructError
                                    (@class_name T H ++ " connection could not process data")))
                      (set_link l c)).
  { unfold _run_iteration. rewrite Hst.
    rewrite (tick_with_data c payload l Hprobe Hne), Hhandle. reflexivity. }
  split; [apply Hhandle |]. split; [exact Hturn |]. rewrite Hturn. reflexivity.
Qed.

Lemma malformed_command_frame_is_reported_witness :
  _handle_data [xee; xaf; x01]
    (set_queue [] (_run 1 (__init__ (1 # 100) [Some [xee; xaf; x01]])))
  = (inl StructError, set_queue [] (_run 1 (__init__ (1 # 100) [Some [xee; xaf; x01]])))
  /\ _run_iteration (set_queue [] (_run 1 (__init__ (1 # 100) [Some [xee; xaf; x01]])))
     = finish (Some (ConnectionDataFetchException StructError
                       (@class_name _ ScriptedLink ++ " connection could not process data")))
         (set_link [] (set_queue [] (_run 1 (__init__ (1 # 100) [Some [xee; xaf; x01]]))))
  /\ calls (_run_iteration (set_queue [] (_run 1 (__init__ (1 # 100) [Some [xee; xaf; x01]]))))
     = calls (set_queue [] (_run 1 (__init__ (1 # 100) [Some [xee; xaf; x01]]))).
Proof.
  apply (@malformed_command_frame_is_reported _ ScriptedLink
           (set_queue [] (_run 1 (__init__ (1 # 100) [Some [xee; xaf; x01]])))
           [xee; xaf; x01] []).
  - reflexivity.
  - discriminate.
  - reflexivity.
  - reflexivity.
Defined.

(** C8.  A received frame of at least two bytes whose magic is neither
    0xEEAF nor 0xEEAE: no callback is called, nothing is raised, and after
    the turn the task is still pending, with queue and calls as before. *)
Theorem unknown_magic_is_dropped :
  forall (T : Type) (H : Transport T) (c : Connection T) (payload : bytes)
         (header : Z) (l : T),
    unpack_fmt_H (firstn 2 payload) = inr header ->
    header <> 0xEEAF ->
    header <> 0xEEAE ->
    state (_task c) = Pending false ->
    _check (link c) = (inr (Some payload), l) ->
    _handle_data payload c = (inr tt, c)
    /\ _run_iteration c = set_link l c
    /\ calls (_run_iteration c) = calls c
    /\ state (_task (_run_iteration c)) = Pending false.
Proof.
  intros T H c payload header l Hhdr Haf Hae Hst Hprobe.
  assert (Hhandle : forall c' : Connection T, _handle_data payload c' = (inr tt, c')).
  { intros c'. unfold _handle_data. unfold_py. rewrite Hhdr.
    apply Z.eqb_neq in Haf, Hae. rewrite Haf, Hae. reflexivity. }
  assert (Hne : payload <> []) by (intros ->; discriminate Hhdr).
  assert (Hturn : _run_iteration c = set_link l c).
  { unfold _run_iteration. rewrite Hst.
    rewrite (tick_with_data c payload l Hprobe Hne), Hhandle. reflexivity. }
  split; [apply Hhandle |]. rewrite Hturn. repeat split. exact Hst.
Qed.

Lemma unknown_magic_is_dropped_witness :
  _handle_data [x00; x00; x07]
    (set_queue [[x01]] (_run 1 (__init__ (1 # 100) [Some [x00; x00; x07]])))
  = (inr tt, set_queue [[x01]] (_run 1 (__init__ (1 # 100) [Some [x00; x00; x07]])))
  /\ _run_iteration (set_queue [[x01]] (_run 1 (__init__ (1 # 100) [Some [x00; x00; x07]])))
     = set_link [] (set_queue [[x01]] (_run 1 (__init__ (1 # 100) [Some [x00; x00; x07]])))
  /\ calls (_run_iteration (set_queue [[x01]] (_run 1 (__init__ (1 # 100) [Some [x00; x00; x07]]))))
     = calls (set_queue [[x01]] (_run 1 (__init__ (1 # 100) [Some [x00; x00; x07]])))
  /\ state (_task (_run_iteration
                     (set_queue [[x01]] (_run 1 (__init__ (1 # 100) [Some [x00; x00; x07]])))))
     = Pending false.
Proof.
  apply (@unknown_magic_is_dropped _ ScriptedLink
           (set_queue [[x01]] (_run 1 (__init__ (1 # 100) [Some [x00; x00; x07]])))
           [x00; x00; x07] 0 []).
  - reflexivity.
  - discriminate.
  - discriminate.
  - reflexivity.
  - reflexivity.
Defined.

(** ** Cancellation *)

Section StopFacts.

Context {T : Type} `{Transport T}.

(** A task that has ended does nothing more. *)
Lemma run_ended (n : nat) :
  forall c : Connection T,
    (exists outcome, state (_task c) = Done outcome) \/ state (_task c) = Cancelled ->
    _run n c = c.
Proof.
  induction n as [|n IH]; intros c Hst; simpl; [reflexivity |].
  assert (E : _run_iteration c = c)
    by (unfold _run_iteration; destruct Hst as [[outcome ->] | ->]; reflexivity).
  rewrite E. apply IH, Hst.
Qed.


End StopFacts.


(** ** An empty answer of the probe *)

(** C10.  When the probe answers [b""] the tick is the one taken when it
    answers [None]: in both cases it is the working of the queue, on the
    object as the probe left it, and it calls no callback.  With a frame
    queued, that frame leaves the queue and is handed to the transport;
    with none, the tick raises without a call. *)
Theorem empty_probe_is_no_data :
  forall (T : Type) (H : Transport T) (c : Connection T)
         (result : option bytes) (l : T),
    _check (link c) = (inr result, l) ->
    result = Some [] \/ result = None ->
    tick c = work_queue (set_link l c)
    /\ (exists new : list call,
          calls (snd (tick c)) = calls c ++ new
          /\ existsb is_dispatch new = false)
    /\ match _queue c with
       | Some (data :: q) =>
           calls (snd (tick c)) = calls c ++ [SendData data]
           /\ _queue (snd (tick c)) = Some q
       | Some [] => tick c = (inl IndexError, set_link l c)
       | None => tick c = (inl (AttributeError "_queue"), set_link l c)
       end.
Proof.
  intros T H c result l Hprobe Hresult.
  assert (E : tick c = work_queue (set_link l c))
    by (apply (tick_without_data c result l Hprobe);
        destruct Hresult as [-> | ->]; reflexivity).
  split; [exact E |]. split; [rewrite E; exact (work_queue_calls (set_link l c)) |].
  rewrite E. unfold_py. simpl.
  destruct (_queue c) as [[|data q]|]; try reflexivity.
  simpl. destruct (_send_data data l) as [[e | sent] l']; split; reflexivity.
Qed.

Lemma empty_probe_is_no_data_witness :
  tick (set_queue [[x01]; [x02]] (_run 1 (__init__ (1 # 100) (inr (Some []), inr None))))
  = work_queue
      (set_link (inr (Some []), inr None)
         (set_queue [[x01]; [x02]]
            (_run 1 (__init__ (1 # 100) (inr (Some []), inr None)))))
  /\ (exists new : list call,
        calls (snd (tick (set_queue [[x01]; [x02]]
                            (_run 1 (__init__ (1 # 100) (inr (Some []), inr None))))))
        = calls (set_queue [[x01]; [x02]]
                   (_run 1 (__init__ (1 # 100) (inr (Some []), inr None)))) ++ new
        /\ existsb is_dispatch new = false)
  /\ calls (snd (tick (set_queue [[x01]; [x02]]
                         (_run 1 (__init__ (1 # 100) (inr (Some []), inr None))))))
     = calls (set_queue [[x01]; [x02]]
                (_run 1 (__init__ (1 # 100) (inr (Some []), inr None))))
       ++ [SendData [x01]]
     /\ _queue (snd (tick (set_queue [[x01]; [x02]]
                             (_run 1 (__init__ (1 # 100) (inr (Some []), inr None))))))
        = Some [[x02]].
Proof.
  exact (@empty_probe_is_no_data _ FixedLink
           (set_queue [[x01]; [x02]]
              (_run 1 (__init__ (1 # 100) (inr (Some []), inr None))))
           (Some []) (inr (Some []), inr None) eq_refl (or_introl eq_refl)).
Defined.

(** * Further properties of the code *)

(** ** The codec, from bytes to values and back *)

Lemma Z_of_byte_range (b : byte) : 0 <= Z_of_byte b < 256.
Proof.
  unfold Z_of_byte. pose proof (Byte.to_N_bounded b). lia.
Qed.

Lemma byte_of_Z_shifted (a : Z) (b : byte) : byte_of_Z (a * 256 + Z_of_byte b) = b.
Proof.
  pose proof (Z_of_byte_range b) as Hb. unfold byte_of_Z.
  rewrite Z.add_comm, Z.mod_add by lia. rewrite Z.mod_small by exact Hb.
  unfold Z_of_byte. rewrite N2Z.id, Byte.of_to_N. reflexivity.
Qed.

Lemma be_int_from_shift (bs : bytes) :
  forall acc,
    be_int_from acc bs = acc * 256 ^ Z.of_nat (List.length bs) + be_int bs
    /\ 0 <= be_int bs < 256 ^ Z.of_nat (List.length bs).
Proof.
  unfold be_int. induction bs as [|b bs IH]; intros acc.
  - simpl. lia.
  - cbn [be_int_from List.length]. pose proof (Z_of_byte_range b) as Hb.
    destruct (IH (acc * 256 + Z_of_byte b)) as [E1 Hr].
    destruct (IH (0 * 256 + Z_of_byte b)) as [E2 _].
    rewrite E1, E2, Nat2Z.inj_succ, Z.pow_succ_r by lia.
    split; [ring | nia].
Qed.

Lemma be_bytes_be_int_from (bs : bytes) :
  forall acc, be_bytes (List.length bs) (be_int_from acc bs) = bs.
Proof.
  induction bs as [|b bs IH]; intros acc; [reflexivity |].
  cbn [List.length be_bytes be_int_from]. rewrite IH. f_equal.
  destruct (be_int_from_shift bs (acc * 256 + Z_of_byte b)) as [E Hr].
  rewrite E, Z.div_add_l by lia. rewrite Z.div_small by exact Hr.
  rewrite Z.add_0_r. apply byte_of_Z_shifted.
Qed.

(** X1.  Every 7-byte frame with the command magic is dispatched: the
    callback gets a command in 0..255 and a float, and packing those two
    values again gives back the frame received, but for a signalling NaN in
    the throttle field, which comes back with its quiet bit set. *)
Theorem received_command_frame_re_encodes :
  forall (T : Type) (H : Transport T) (c : Connection T) (b2 b3 b4 b5 b6 : byte),
  exists command throttle : Z,
    _handle_data [xee; xaf; b2; b3; b4; b5; b6] c
    = (inr tt, record_call (OnCommandPayload command throttle) c)
    /\ 0 <= command <= 255
    /\ pack_fmt_HBf 0xEEAF command throttle
       = inr ([xee; xaf; b2] ++ be_bytes 4 (quiet32 (be_int [b3; b4; b5; b6])))
    /\ (if is_snan32 (be_int [b3; b4; b5; b6]) then True
        else pack_fmt_HBf 0xEEAF command throttle
             = inr [xee; xaf; b2; b3; b4; b5; b6]).
Proof.
  intros T H c b2 b3 b4 b5 b6.
  exists (be_int [b2]), (double_of_single (be_int [b3; b4; b5; b6])).
  destruct (be_int_from_shift [b2] 0) as [_ Hc].
  destruct (be_int_from_shift [b3; b4; b5; b6] 0) as [_ Ht].
  change (256 ^ Z.of_nat (List.length [b2])) with 256 in Hc.
  change (256 ^ Z.of_nat (List.length [b3; b4; b5; b6])) with (2 ^ 32) in Ht.
  destruct (quiet32_fields _ Ht) as (Hq & _ & _).
  assert (Hpack : pack_fmt_HBf 0xEEAF (be_int [b2])
                    (double_of_single (be_int [b3; b4; b5; b6]))
                  = inr ([xee; xaf; b2]
                           ++ be_bytes 4 (quiet32 (be_int [b3; b4; b5; b6])))).
  { unfold double_of_single. rewrite pack_fmt_HBf_ok by (exact Hq || lia).
    rewrite (quiet32_quiet32 _ Ht).
    pose proof (be_bytes_be_int_from [b2] 0) as E1. unfold be_int.
    cbn [List.length] in E1. rewrite E1. reflexivity. }
  split; [reflexivity |]. split; [lia |]. split; [exact Hpack |].
  unfold quiet32 in Hpack. destruct (is_snan32 (be_int [b3; b4; b5; b6])); [exact I |].
  rewrite Hpack.
  pose proof (be_bytes_be_int_from [b3; b4; b5; b6] 0) as E2. unfold be_int.
  cbn [List.length] in E2. rewrite E2. reflexivity.
Qed.

(** ** Binary payloads *)

(** X3.  On a connection whose queue is bound, [send_binary_payload]
    returns for every payload, the empty one included, and queues the two
    magic bytes followed by the payload; [_handle_data] on that frame makes
    exactly the call [on_binary_payload(payload)], whatever the payload's
    own bytes are. *)
Theorem binary_payload_round_trip :
  forall (T : Type) (H : Transport T) (sender receiver : Connection T)
         (q : list bytes) (binary_payload : bytes) (send_immediately : bool),
    _queue sender = Some q ->
    send_binary_payload binary_payload send_immediately sender
    = (inr tt,
       set_queue (if send_immediately
                  then (xee :: xae :: binary_payload) :: q
                  else q ++ [xee :: xae :: binary_payload]) sender)
    /\ List.length (xee :: xae :: binary_payload) = (2 + List.length binary_payload)%nat
    /\ _handle_data (xee :: xae :: binary_payload) receiver
       = (inr tt, record_call (OnBinaryPayload binary_payload) receiver).
Proof.
  intros T H sender receiver q binary_payload send_immediately Hq.
  split; [| split; reflexivity].
  unfold send_binary_payload. unfold_py.
  change (pack_fmt_H 0xEEAE) with (@inr exn bytes [xee; xae]).
  destruct send_immediately; rewrite Hq; reflexivity.
Qed.

Lemma binary_payload_round_trip_witness :
  send_binary_payload [] true (set_queue [[x07]] (_run 1 (WiredConnection__init__ (1 # 100) 1 2 [])))
  = (inr tt,
     set_queue (if true then (xee :: xae :: []) :: [[x07]] else [[x07]] ++ [xee :: xae :: []])
       (set_queue [[x07]] (_run 1 (WiredConnection__init__ (1 # 100) 1 2 []))))
  /\ List.length (xee :: xae :: @nil byte) = (2 + List.length (@nil byte))%nat
  /\ _handle_data (xee :: xae :: [])
       (set_queue [] (_run 1 (WiredConnection__init__ (1 # 100) 1 2 [])))
     = (inr tt, record_call (OnBinaryPayload [])
                  (set_queue [] (_run 1 (WiredConnection__init__ (1 # 100) 1 2 [])))).
Proof.
  apply (@binary_payload_round_trip unit WiredConnection
           (set_queue [[x07]] (_run 1 (WiredConnection__init__ (1 # 100) 1 2 [])))
           (set_queue [] (_run 1 (WiredConnection__init__ (1 # 100) 1 2 [])))
           [[x07]] [] true).
  reflexivity.
Defined.

(** ** Arguments the format refuses *)

(** X4.  A command outside 0..255 makes [send_command] raise
    [struct.error], whatever the throttle and the flag, and whether or not
    the queue is bound: the frame is packed before the queue is looked at,
    and the object is left as it was. *)
Theorem send_command_refuses_wide_command :
  forall (T : Type) (H : Transport T) (c : Connection T)
         (command throttle : Z) (send_immediately : bool),
    command < 0 \/ 255 < command ->
    send_command command throttle send_immediately c = (inl StructError, c).
Proof.
  intros T H c command throttle send_immediately Hbad.
  unfold send_command. unfold_py. unfold pack_fmt_HBf, pack_B.
  change (pack_H 0xEEAF) with (@inr exn bytes (be_bytes 2 0xEEAF)).
  assert (E : in_range command 8 = false).
  { destruct (in_range command 8) eqn:E; [| reflexivity].
    apply in_range_true in E. simpl in E. lia. }
  rewrite E. reflexivity.
Qed.

Lemma send_command_refuses_wide_command_witness :
  send_command 256 0 false (set_queue [[x07]] (_run 1 (WiredConnection__init__ (1 # 100) 1 2 [])))
  = (inl StructError, set_queue [[x07]] (_run 1 (WiredConnection__init__ (1 # 100) 1 2 []))).
Proof.
  apply (@send_command_refuses_wide_command unit WiredConnection
           (set_queue [[x07]] (_run 1 (WiredConnection__init__ (1 # 100) 1 2 []))) 256 0 false).
  right. lia.
Defined.

(** ** Frames too short to carry a magic *)

(** X5.  A received frame of a single byte cannot be unpacked as a header:
    [_handle_data] raises [struct.error] without calling anything, and the
    turn that received it ends the task with
    [ConnectionDataFetchException]; the queue is not touched. *)
Theorem one_byte_frame_ends_the_loop :
  forall (T : Type) (H : Transport T) (c : Connection T) (b : byte) (l : T),
    state (_task c) = Pending false ->
    _check (link c) = (inr (Some [b]), l) ->
    _handle_data [b] c = (inl StructError, c)
    /\ _run_iteration c
       = finish (Some (ConnectionDataFetchException StructError
                         (@class_name T H ++ " connection could not process data")))
           (set_link l c)
    /\ calls (_run_iteration c) = calls c
    /\ _queue (_run_iteration c) = _queue c.
Proof.
  intros T H c b l Hst Hprobe.
  assert (Hturn : _run_iteration c
                  = finish (Some (ConnectionDataFetchException StructError
                                    (@class_name T H ++ " connection could not process data")))
                      (set_link l c)).
  { unfold _run_iteration. rewrite Hst.
    rewrite (tick_with_data c [b] l Hprobe) by discriminate. reflexivity. }
  split; [reflexivity |]. rewrite Hturn. repeat split.
Qed.

Lemma one_byte_frame_ends_the_loop_witness :
  _handle_data [xee] (set_queue [[x07]] (_run 1 (__init__ (1 # 100) [Some [xee]])))
  = (inl StructError, set_queue [[x07]] (_run 1 (__init__ (1 # 100) [Some [xee]])))
  /\ _run_iteration (set_queue [[x07]] (_run 1 (__init__ (1 # 100) [Some [xee]])))
     = finish (Some (ConnectionDataFetchException StructError
                       (@class_name _ ScriptedLink ++ " connection could not process data")))
         (set_link [] (set_queue [[x07]] (_run 1 (__init__ (1 # 100) [Some [xee]]))))
  /\ calls (_run_iteration (set_queue [[x07]] (_run 1 (__init__ (1 # 100) [Some [xee]]))))
     = calls (set_queue [[x07]] (_run 1 (__init__ (1 # 100) [Some [xee]])))
  /\ _queue (_run_iteration (set_queue [[x07]] (_run 1 (__init__ (1 # 100) [Some [xee]]))))
     = _queue (set_queue [[x07]] (_run 1 (__init__ (1 # 100) [Some [xee]]))).
Proof.
  apply (@one_byte_frame_ends_the_loop _ ScriptedLink
           (set_queue [[x07]] (_run 1 (__init__ (1 # 100) [Some [xee]]))) xee []);
    reflexivity.
Defined.

(** ** What a turn of the loop changes *)

Section TurnFacts.

Context {T : Type} `{Transport T}.

Lemma existsb_false_filter {A : Type} (f : A -> bool) (xs : list A) :
  existsb f xs = false -> filter f xs = [].
Proof.
  induction xs as [|x xs IH]; simpl; [reflexivity |].
  destruct (f x); simpl; [discriminate | exact IH].
Qed.

(** [_handle_data] changes nothing but the record of calls, to which it
    adds at most one callback. *)
Lemma handle_data_effect (payload : bytes) (c : Connection T) :
  exists new,
    calls (snd (_handle_data payload c)) = calls c ++ new
    /\ (List.length new <= 1)%nat
    /\ existsb is_send new = false
    /\ _queue (snd (_handle_data payload c)) = _queue c
    /\ link (snd (_handle_data payload c)) = link c.
Proof.
  unfold _handle_data. unfold_py.
  destruct (unpack_fmt_H (firstn 2 payload)) as [e | header].
  - exists []. simpl. rewrite app_nil_r. auto.
  - destruct (header =? 0xEEAF).
    + destruct (unpack_fmt_HBf payload) as [e | [[magic command] throttle]].
      * exists []. simpl. rewrite app_nil_r. auto.
      * exists [OnCommandPayload command throttle]. simpl. auto.
    + destruct (header =? 0xEEAE).
      * exists [OnBinaryPayload (skipn 2 payload)]. simpl. auto.
      * exists []. simpl. rewrite app_nil_r. auto.
Qed.

(** Working the queue adds at most one call, to the transport. *)
Lemma work_queue_effect (c : Connection T) :
  exists new,
    calls (snd (work_queue c)) = calls c ++ new
    /\ (List.length new <= 1)%nat
    /\ existsb is_dispatch new = false.
Proof.
  unfold_py.
  destruct (_queue c) as [[|data q]|] eqn:Hq.
  - exists []. simpl. rewrite app_nil_r. auto.
  - exists [SendData data]. simpl.
    destruct (_send_data data (link c)) as [[e | sent] l]; simpl; auto.
  - exists []. simpl. rewrite app_nil_r. auto.
Qed.

(** Whatever the tick returns or raises, the turn keeps the object the
    tick left, but for the task. *)
Lemma run_iteration_fields (c : Connection T) :
  state (_task c) = Pending false ->
  calls (_run_iteration c) = calls (snd (tick c))
  /\ _queue (_run_iteration c) = _queue (snd (tick c))
  /\ link (_run_iteration c) = link (snd (tick c)).
Proof.
  intros Hst. unfold _run_iteration. rewrite Hst.
  destruct (tick c) as [[e | u] c']; [destruct e |]; simpl; auto.
Qed.

Lemma run_iteration_idle_task (c : Connection T) :
  state (_task c) <> Pending false ->
  calls (_run_iteration c) = calls c
  /\ _queue (_run_iteration c) = _queue c
  /\ link (_run_iteration c) = link c.
Proof.
  intros Hst. unfold _run_iteration.
  destruct (state (_task c)) as [[|] | [|] | outcome |]; simpl; auto. contradiction.
Qed.

Lemma task_state_cases (c : Connection T) :
  state (_task c) = Pending false \/ state (_task c) <> Pending false.
Proof.
  destruct (state (_task c)) as [[|] | [|] | outcome |]; auto; right; discriminate.
Qed.

(** A turn adds at most one call; none to a callback when the probe
    reports no data. *)
Lemma run_iteration_calls (c : Connection T) :
  exists new,
    calls (_run_iteration c) = calls c ++ new
    /\ (List.length new <= 1)%nat
    /\ (probe_has_data c = false -> existsb is_dispatch new = false).
Proof.
  destruct (task_state_cases c) as [Hst | Hst].
  - destruct (run_iteration_fields c Hst) as (-> & _ & _).
    unfold probe_has_data.
    destruct (_check (link c)) as [[e | result] l] eqn:Hprobe; cbn [fst].
    + exists []. unfold tick, bind, call_check. rewrite Hprobe. simpl.
      rewrite app_nil_r. auto.
    + destruct (truthy result) eqn:Htruth.
      * destruct result as [[|b rest]|]; try discriminate Htruth.
        rewrite (tick_with_data c (b :: rest) l Hprobe) by discriminate.
        destruct (handle_data_effect (b :: rest) (set_link l c))
          as (new & Hcalls & Hlen & _).
        exists new. rewrite Hcalls. repeat split; [exact Hlen | discriminate].
      * rewrite (tick_without_data c result l Hprobe Htruth).
        destruct (work_queue_effect (set_link l c)) as (new & Hcalls & Hlen & Hdisp).
        exists new. rewrite Hcalls. auto.
  - destruct (run_iteration_idle_task c Hst) as (-> & _ & _).
    exists []. rewrite app_nil_r. simpl. auto.
Qed.

End TurnFacts.

(** X6.  A turn of the loop makes at most one call to a collaborator: one
    callback or one send, whatever the state of the task, the queue and the
    link. *)
Theorem turn_makes_at_most_one_call :
  forall (T : Type) (H : Transport T) (c : Connection T),
  exists new : list call,
    calls (_run_iteration c) = calls c ++ new /\ (List.length new <= 1)%nat.
Proof.
  intros T H c. destruct (run_iteration_calls c) as (new & Hcalls & Hlen & _).
  exists new. split; assumption.
Qed.

(** ** Failures of the transport *)



(** X8.  When the probe itself raises, the turn calls nothing and leaves
    the queue alone, and the task is over: with
    [ConnectionDataFetchException] around the cause, or without any
    exception when the cause is [CancelledError], which [_run] swallows. *)
Theorem failed_probe_ends_the_loop :
  forall (T : Type) (H : Transport T) (c : Connection T) (e : exn) (l : T) (n : nat),
    state (_task c) = Pending false ->
    _check (link c) = (inl e, l) ->
    _run (S n) c
    = finish (match e with
              | CancelledError => None
              | _ => Some (ConnectionDataFetchException e
                             (@class_name T H ++ " connection could not process data"))
              end) (set_link l c)
    /\ calls (_run (S n) c) = calls c
    /\ _queue (_run (S n) c) = _queue c.
Proof.
  intros T H c e l n Hst Hprobe.
  assert (Hturn : _run_iteration c
                  = finish (match e with
                            | CancelledError => None
                            | _ => Some (ConnectionDataFetchException e
                                           (@class_name T H
                                            ++ " connection could not process data"))
                            end) (set_link l c)).
  { unfold _run_iteration, tick, bind, call_check. rewrite Hst, Hprobe.
    destruct e; reflexivity. }
  cbn [_run]. rewrite Hturn. erewrite run_done by reflexivity.
  repeat split.
Qed.

Lemma failed_probe_ends_the_loop_witness :
  _run 2 (set_queue [[x01]] (_run 1 (__init__ (1 # 100) (inl OverflowError, inr None))))
  = finish (match OverflowError with
            | CancelledError => None
            | _ => Some (ConnectionDataFetchException OverflowError
                           (@class_name _ FixedLink ++ " connection could not process data"))
            end)
      (set_link (inl OverflowError, inr None)
         (set_queue [[x01]] (_run 1 (__init__ (1 # 100) (inl OverflowError, inr None)))))
  /\ calls (_run 2 (set_queue [[x01]] (_run 1 (__init__ (1 # 100) (inl OverflowError, inr None)))))
     = calls (set_queue [[x01]] (_run 1 (__init__ (1 # 100) (inl OverflowError, inr None))))
  /\ _queue (_run 2 (set_queue [[x01]] (_run 1 (__init__ (1 # 100) (inl OverflowError, inr None)))))
     = _queue (set_queue [[x01]] (_run 1 (__init__ (1 # 100) (inl OverflowError, inr None)))).
Proof.
  apply (@failed_probe_ends_the_loop _ FixedLink
           (set_queue [[x01]] (_run 1 (__init__ (1 # 100) (inl OverflowError, inr None))))
           OverflowError (inl OverflowError, inr None) 1%nat);
    reflexivity.
Defined.

(** ** Sending to a loop that is over *)

Section StoppedLoop.

Context {T : Type} `{Transport T}.

Lemma run_not_running (n : nat) (c : Connection T) :
  state (_task c) <> Scheduled false ->
  state (_task c) <> Pending false ->
  calls (_run n c) = calls c /\ _queue (_run n c) = _queue c.
Proof.
  intros Hnew Hst. destruct n as [|n]; [split; reflexivity |].
  cbn [_run]. unfold _run_iteration.
  destruct (state (_task c)) as [[|] | [|] | outcome |] eqn:E; try contradiction.
  - rewrite run_ended by (right; reflexivity). split; reflexivity.
  - rewrite run_ended by (left; eexists; reflexivity). split; reflexivity.
  - rewrite run_ended by (left; eexists; exact E). split; reflexivity.
  - rewrite run_ended by (right; exact E). split; reflexivity.
Qed.

End StoppedLoop.

(** X9.  Once the loop is stopped or over (cancellation requested, or the
    task ended), a send on a bound queue still returns normally and still
    queues its frame, but no number of steps transmits it: the frame stays
    in the queue. *)
Theorem send_after_the_loop_ended_is_never_transmitted :
  forall (T : Type) (H : Transport T) (c : Connection T)
         (q : list bytes) (r : request) (frame : bytes) (send_immediately : bool)
         (n : nat),
    state (_task c) <> Scheduled false ->
    state (_task c) <> Pending false ->
    _queue c = Some q ->
    frame_of r = inr frame ->
    fst (send r send_immediately c) = inr tt
    /\ _queue (_run n (snd (send r send_immediately c)))
       = Some (if send_immediately then frame :: q else q ++ [frame])
    /\ calls (_run n (snd (send r send_immediately c))) = calls c.
Proof.
  intros T H c q r frame send_immediately n Hnew Hst Hq Hf.
  rewrite (send_bound c q r frame send_immediately Hq Hf). cbn [fst snd].
  destruct (run_not_running n
              (set_queue (if send_immediately then frame :: q else q ++ [frame]) c)
              Hnew Hst)
    as [-> ->].
  repeat split.
Qed.

Lemma send_after_the_loop_ended_is_never_transmitted_witness :
  fst (send (SendCommand 9 0) true
         (snd (stop (set_queue [[x07]] (_run 1 (WiredConnection__init__ (1 # 100) 1 2 []))))))
  = inr tt
  /\ _queue (_run 5 (snd (send (SendCommand 9 0) true
                            (snd (stop (set_queue [[x07]]
                                          (_run 1 (WiredConnection__init__ (1 # 100) 1 2 []))))))))
     = Some (if true then [xee; xaf; x09; x00; x00; x00; x00] :: [[x07]]
             else [[x07]] ++ [[xee; xaf; x09; x00; x00; x00; x00]])
  /\ calls (_run 5 (snd (send (SendCommand 9 0) true
                           (snd (stop (set_queue [[x07]]
                                         (_run 1 (WiredConnection__init__ (1 # 100) 1 2 []))))))))
     = calls (snd (stop (set_queue [[x07]] (_run 1 (WiredConnection__init__ (1 # 100) 1 2 []))))).
Proof.
  apply (@send_after_the_loop_ended_is_never_transmitted unit WiredConnection
           (snd (stop (set_queue [[x07]] (_run 1 (WiredConnection__init__ (1 # 100) 1 2 [])))))
           [[x07]] (SendCommand 9 0) [xee; xaf; x09; x00; x00; x00; x00] true 5%nat).
  - discriminate.
  - discriminate.
  - reflexivity.
  - reflexivity.
Defined.

(** ** The life of the loop on a quiet link *)

Section QuietLink.

Context {T : Type} `{Transport T}.

Lemma run_add (a b : nat) :
  forall c : Connection T, _run (a + b) c = _run b (_run a c).
Proof. induction a as [|a IH]; intros c; simpl; [reflexivity | apply IH]. Qed.

Lemma idle_turn_on_empty_queue (c : Connection T) :
  idle_link T ->
  _queue c = Some [] ->
  state (_task c) = Pending false ->
  exists l,
    _run_iteration c
    = finish (Some (ConnectionDataFetchException IndexError
                      (class_name ++ " connection could not process data")))
        (set_link l c).
Proof.
  intros [Hprobe _] Hq Hst.
  destruct (Hprobe (link c)) as (result & l & E & Hfalse). exists l.
  unfold _run_iteration. rewrite Hst, (tick_without_data c result l E Hfalse).
  unfold_py. simpl. rewrite Hq. reflexivity.
Qed.

End QuietLink.

(** X10.  On a link where nothing arrives and every send returns, a loop
    that starts with the backlog [q] transmits exactly the frames of [q],
    one per turn and in order, and the turn after the last one ends the
    task with [ConnectionDataFetchException] around [IndexError]; later
    turns change nothing. *)
Theorem backlog_is_transmitted_then_the_loop_ends :
  forall (T : Type) (H : Transport T) (c : Connection T) (q : list bytes) (n : nat),
    idle_link T ->
    _queue c = Some q ->
    state (_task c) = Pending false ->
    calls (_run (List.length q) c) = calls c ++ map SendData q
    /\ state (_task (_run (List.length q) c)) = Pending false
    /\ calls (_run (List.length q + S n) c) = calls c ++ map SendData q
    /\ _queue (_run (List.length q + S n) c) = Some []
    /\ state (_task (_run (List.length q + S n) c))
       = Done (Some (ConnectionDataFetchException IndexError
                       (@class_name T H ++ " connection could not process data"))).
Proof.
  intros T H c q n Hidle Hq Hst.
  destruct (drain q c Hidle Hq Hst) as (Hcalls & Hempty & Htask).
  assert (Hst' : state (_task (_run (List.length q) c)) = Pending false)
    by (rewrite Htask; exact Hst).
  destruct (idle_turn_on_empty_queue (_run (List.length q) c) Hidle Hempty Hst')
    as [l Hturn].
  split; [exact Hcalls |]. split; [exact Hst' |].
  rewrite run_add. cbn [_run]. rewrite Hturn.
  erewrite run_done by reflexivity. cbn [finish set_task set_link calls _queue _task state].
  rewrite Hcalls, Hempty. repeat split.
Qed.

Lemma backlog_is_transmitted_then_the_loop_ends_witness :
  calls (_run (List.length [[x01]; [x02]])
           (set_queue [[x01]; [x02]] (_run 1 (WiredConnection__init__ (1 # 100) 1 2 []))))
  = calls (set_queue [[x01]; [x02]] (_run 1 (WiredConnection__init__ (1 # 100) 1 2 [])))
    ++ map SendData [[x01]; [x02]]
  /\ state (_task (_run (List.length [[x01]; [x02]])
                     (set_queue [[x01]; [x02]] (_run 1 (WiredConnection__init__ (1 # 100) 1 2 [])))))
     = Pending false
  /\ calls (_run (List.length [[x01]; [x02]] + 4)
              (set_queue [[x01]; [x02]] (_run 1 (WiredConnection__init__ (1 # 100) 1 2 []))))
     = calls (set_queue [[x01]; [x02]] (_run 1 (WiredConnection__init__ (1 # 100) 1 2 [])))
       ++ map SendData [[x01]; [x02]]
  /\ _queue (_run (List.length [[x01]; [x02]] + 4)
               (set_queue [[x01]; [x02]] (_run 1 (WiredConnection__init__ (1 # 100) 1 2 []))))
     = Some []
  /\ state (_task (_run (List.length [[x01]; [x02]] + 4)
                     (set_queue [[x01]; [x02]] (_run 1 (WiredConnection__init__ (1 # 100) 1 2 [])))))
     = Done (Some (ConnectionDataFetchException IndexError
                     (@class_name unit WiredConnection
                      ++ " connection could not process data"))).
Proof.
  apply (@backlog_is_transmitted_then_the_loop_ends unit WiredConnection
           (set_queue [[x01]; [x02]] (_run 1 (WiredConnection__init__ (1 # 100) 1 2 [])))
           [[x01]; [x02]] 3%nat).
  - exact wired_link_is_idle.
  - reflexivity.
  - reflexivity.
Defined.

(** ** [WiredConnection] *)

(** X11.  A [WiredConnection], as its constructor leaves it and whatever
    the pins and the acknowledgment payload, lives for one tick: the task's
    first step takes it to the sleep, and at the tick that follows the stub
    probe answers [None], the unbound queue raises [AttributeError], and
    the task ends with [ConnectionDataFetchException]; nothing was called,
    and later steps change nothing. *)
Theorem wired_connection_loop_ends_at_first_tick :
  forall (interval0 : Q) (send_pin recieve_pin : Z) (ack_payload : bytes) (n : nat),
    state (_task (_run 1 (WiredConnection__init__ interval0 send_pin recieve_pin
                            ack_payload)))
    = Pending false
    /\ _run (S (S n)) (WiredConnection__init__ interval0 send_pin recieve_pin ack_payload)
       = finish (Some (ConnectionDataFetchException (AttributeError "_queue")
                         "WiredConnection connection could not process data"))
           (WiredConnection__init__ interval0 send_pin recieve_pin ack_payload)
    /\ calls (_run (S (S n))
                (WiredConnection__init__ interval0 send_pin recieve_pin ack_payload))
       = [].
Proof.
  intros interval0 send_pin recieve_pin ack_payload n.
  assert (Hturn :
            _run_iteration
              (_run_iteration
                 (WiredConnection__init__ interval0 send_pin recieve_pin ack_payload))
            = finish (Some (ConnectionDataFetchException (AttributeError "_queue")
                              "WiredConnection connection could not process data"))
                (WiredConnection__init__ interval0 send_pin recieve_pin ack_payload))
    by reflexivity.
  split; [reflexivity |].
  cbn [_run]. rewrite Hturn. erewrite run_done by reflexivity. split; reflexivity.
Qed.

(** X12.  A [WiredConnection] never calls a callback, in any state and over
    any number of turns: its probe is a stub that always answers [None]. *)
Theorem wired_connection_never_dispatches :
  forall (c : Connection unit) (n : nat),
    filter is_dispatch (calls (_run n c)) = filter is_dispatch (calls c).
Proof.
  intros c n. revert c. induction n as [|n IH]; intros c; [reflexivity |].
  cbn [_run]. rewrite IH.
  destruct (run_iteration_calls c) as (new & Hcalls & _ & Hdisp).
  rewrite Hcalls, filter_app, (existsb_false_filter _ _ (Hdisp eq_refl)), app_nil_r.
  reflexivity.
Qed.

(** ** Sends of both kinds, interleaved *)

(** X13.  After any sequence of sends on a bound queue, each with its own
    flag and with no tick in between, the queue holds first the frames sent
    with [send_immediately], latest first, then what it held before, then
    the frames sent without the flag, earliest first; every send
    returned. *)
Theorem interleaved_sends_layout :
  forall (T : Type) (H : Transport T) (items : list (request * bool))
         (fs : list bytes) (c : Connection T) (q : list bytes),
    _queue c = Some q ->
    Forall2 (fun item f => frame_of (fst item) = inr f) items fs ->
    send_each items c
    = (inr tt,
       set_queue (rev (frames_sent_with true items fs) ++ q
                  ++ frames_sent_with false items fs) c).
Proof.
  intros T H items. induction items as [|[r send_immediately] items IH];
    intros fs c q Hq Hfs; inversion Hfs as [|item f items' fs' Hf Hrest]; subst.
  - simpl. rewrite app_nil_r, (set_queue_same c q Hq). reflexivity.
  - cbn [send_each frames_sent_with]. unfold bind. simpl in Hf.
    rewrite (send_bound c q r f send_immediately Hq Hf).
    rewrite (IH fs' (set_queue (if send_immediately then f :: q else q ++ [f]) c)
               (if send_immediately then f :: q else q ++ [f]) eq_refl Hrest).
    destruct send_immediately; simpl.
    + rewrite <- app_assoc. reflexivity.
    + rewrite <- app_assoc. reflexivity.
Qed.

Lemma interleaved_sends_layout_witness :
  send_each [(SendCommand 1 0, false); (SendBinaryPayload [x05], true);
             (SendCommand 2 0, false); (SendBinaryPayload [x06], true)]
    (set_queue [[x07]] (_run 1 (WiredConnection__init__ (1 # 100) 1 2 [])))
  = (inr tt,
     set_queue
       (rev (frames_sent_with true
               [(SendCommand 1 0, false); (SendBinaryPayload [x05], true);
                (SendCommand 2 0, false); (SendBinaryPayload [x06], true)]
               [[xee; xaf; x01; x00; x00; x00; x00]; [xee; xae; x05];
                [xee; xaf; x02; x00; x00; x00; x00]; [xee; xae; x06]])
        ++ [[x07]]
        ++ frames_sent_with false
             [(SendCommand 1 0, false); (SendBinaryPayload [x05], true);
              (SendCommand 2 0, false); (SendBinaryPayload [x06], true)]
             [[xee; xaf; x01; x00; x00; x00; x00]; [xee; xae; x05];
              [xee; xaf; x02; x00; x00; x00; x00]; [xee; xae; x06]])
       (set_queue [[x07]] (_run 1 (WiredConnection__init__ (1 # 100) 1 2 [])))).
Proof.
  apply (@interleaved_sends_layout unit WiredConnection
           [(SendCommand 1 0, false); (SendBinaryPayload [x05], true);
            (SendCommand 2 0, false); (SendBinaryPayload [x06], true)]
           [[xee; xaf; x01; x00; x00; x00; x00]; [xee; xae; x05];
            [xee; xaf; x02; x00; x00; x00; x00]; [xee; xae; x06]]
           (set_queue [[x07]] (_run 1 (WiredConnection__init__ (1 # 100) 1 2 []))) [[x07]]).
  - reflexivity.
  - repeat constructor.
Defined.

(** ** What leaves the queue *)

Section Conservation.

Context {T : Type} `{Transport T}.

Lemma work_queue_takes_head (c : Connection T) (q : list bytes) :
  _queue c = Some q ->
  exists sent rest,
    q = sent ++ rest
    /\ (List.length sent <= 1)%nat
    /\ _queue (snd (work_queue c)) = Some rest
    /\ calls (snd (work_queue c)) = calls c ++ map SendData sent.
Proof.
  intros Hq. unfold_py. rewrite Hq. destruct q as [|data q].
  - exists [], []. simpl. rewrite app_nil_r. auto.
  - exists [data], q. simpl.
    destruct (_send_data data (link c)) as [[e | sent] l]; simpl; auto.
Qed.

Lemma turn_takes_head (c : Connection T) (q : list bytes) :
  _queue c = Some q ->
  exists sent rest,
    q = sent ++ rest
    /\ (List.length sent <= 1)%nat
    /\ _queue (_run_iteration c) = Some rest
    /\ filter is_send (calls (_run_iteration c))
       = filter is_send (calls c) ++ map SendData sent.
Proof.
  intros Hq. destruct (task_state_cases c) as [Hst | Hst].
  - destruct (run_iteration_fields c Hst) as (-> & -> & _).
    destruct (_check (link c)) as [[e | result] l] eqn:Hprobe.
    + exists [], q. unfold tick, bind, call_check. rewrite Hprobe. simpl.
      rewrite app_nil_r. auto.
    + destruct (truthy result) eqn:Htruth.
      * destruct result as [[|b rest]|]; try discriminate Htruth.
        rewrite (tick_with_data c (b :: rest) l Hprobe) by discriminate.
        destruct (handle_data_effect (b :: rest) (set_link l c))
          as (new & Hcalls & _ & Hsend & Hqueue & _).
        exists [], q. rewrite Hcalls, Hqueue, filter_app.
        rewrite (existsb_false_filter _ _ Hsend). simpl. auto.
      * rewrite (tick_without_data c result l Hprobe Htruth).
        destruct (work_queue_takes_head (set_link l c) q Hq)
          as (sent & rest & Hsplit & Hlen & Hqueue & Hcalls).
        exists sent, rest. rewrite Hqueue, Hcalls, filter_app.
        repeat split; try assumption. f_equal.
        clear. induction sent as [|x sent IH]; simpl; [reflexivity | f_equal; exact IH].
  - destruct (run_iteration_idle_task c Hst) as (-> & -> & _).
    exists [], q. simpl. rewrite app_nil_r. auto.
Qed.

End Conservation.

(** X14.  Over any link and any number of turns, the loop only ever takes
    frames from the front of a bound queue, at most one per turn, and the
    frames that left the queue are exactly the frames handed to the
    transport, in the order they were queued: none is dropped unsent, none
    is sent twice, none is added. *)
Theorem queue_is_conserved :
  forall (T : Type) (H : Transport T) (n : nat) (c : Connection T) (q : list bytes),
    _queue c = Some q ->
    exists sent rest : list bytes,
      q = sent ++ rest
      /\ (List.length sent <= n)%nat
      /\ _queue (_run n c) = Some rest
      /\ filter is_send (calls (_run n c))
         = filter is_send (calls c) ++ map SendData sent.
Proof.
  intros T H n. induction n as [|n IH]; intros c q Hq.
  - exists [], q. simpl. rewrite app_nil_r. auto.
  - destruct (turn_takes_head c q Hq) as (s1 & r1 & E1 & L1 & Q1 & C1).
    destruct (IH (_run_iteration c) r1 Q1) as (s2 & r2 & E2 & L2 & Q2 & C2).
    exists (s1 ++ s2), r2. cbn [_run].
    rewrite Q2, C2, C1, map_app, length_app, <- !app_assoc.
    repeat split; [subst; reflexivity | lia].
Qed.

Lemma queue_is_conserved_witness :
  exists sent rest : list bytes,
    [[x01]; [x02]; [x03]] = sent ++ rest
    /\ (List.length sent <= 4)%nat
    /\ _queue (_run 4 (set_queue [[x01]; [x02]; [x03]]
                         (_run 1 (__init__ (1 # 100) [None; Some [xee; xae; x09]; Some []]))))
       = Some rest
    /\ filter is_send
         (calls (_run 4 (set_queue [[x01]; [x02]; [x03]]
                           (_run 1 (__init__ (1 # 100) [None; Some [xee; xae; x09]; Some []])))))
       = filter is_send
           (calls (set_queue [[x01]; [x02]; [x03]]
                     (_run 1 (__init__ (1 # 100) [None; Some [xee; xae; x09]; Some []]))))
         ++ map SendData sent.
Proof.
  apply (@queue_is_conserved _ ScriptedLink 4%nat
           (set_queue [[x01]; [x02]; [x03]]
              (_run 1 (__init__ (1 # 100) [None; Some [xee; xae; x09]; Some []])))
           [[x01]; [x02]; [x03]]).
  reflexivity.
Defined.

(** ** From a send at one end to a callback at the other *)

(** X15.  What is sent is what is delivered, up to the precision of the
    wire.  A send whose frame packs, made on an empty bound queue over a
    quiet link, has its frame handed to the transport by the sender's next
    turn; and the turn of any receiver whose probe returns that frame makes
    exactly one call, to the matching callback: with the command and the
    throttle converted to float32 and back, or with the binary payload as
    it was sent. *)
Theorem sent_frame_is_delivered :
  forall (T1 : Type) (H1 : Transport T1) (T2 : Type) (H2 : Transport T2)
         (sender : Connection T1) (receiver : Connection T2)
         (r : request) (frame : bytes) (send_immediately : bool) (l : T2),
    idle_link T1 ->
    _queue sender = Some [] ->
    state (_task sender) = Pending false ->
    frame_of r = inr frame ->
    state (_task receiver) = Pending false ->
    _check (link receiver) = (inr (Some frame), l) ->
    calls (_run_iteration (snd (send r send_immediately sender)))
    = calls sender ++ [SendData frame]
    /\ calls (_run_iteration receiver) = calls receiver ++ [delivered r].
Proof.
  intros T1 H1 T2 H2 sender receiver r frame send_immediately l
         Hidle Hq Hst Hf Hst2 Hprobe.
  split.
  - rewrite (send_bound sender [] r frame send_immediately Hq Hf). cbn [snd].
    assert (Hq1 : _queue (set_queue (if send_immediately then [frame] else [] ++ [frame])
                            sender) = Some [frame])
      by (destruct send_immediately; reflexivity).
    destruct (work_turn _ frame [] Hidle Hq1 Hst) as [l1 ->]. reflexivity.
  - assert (Hhandle : _handle_data frame (set_link l receiver)
                      = (inr tt, record_call (delivered r) (set_link l receiver))).
    { destruct r as [command throttle | binary_payload]; cbn [frame_of delivered] in *.
      - destruct (pack_fmt_HBf_inv command throttle frame Hf) as [Hc Hframe].
        rewrite Hframe. unfold _handle_data. unfold_py.
        rewrite (unpack_pack_fmt_HBf command (single_of_double throttle) Hc
                   (single_of_double_range throttle)).
        reflexivity.
      - assert (Hframe : frame = xee :: xae :: binary_payload)
          by (cbv in Hf; congruence).
        rewrite Hframe. reflexivity. }
    assert (Hne : frame <> []) by (intros ->; discriminate Hhandle).
    destruct (run_iteration_fields receiver Hst2) as (-> & _ & _).
    rewrite (tick_with_data receiver frame l Hprobe Hne), Hhandle. reflexivity.
Qed.

Lemma sent_frame_is_delivered_witness :
  calls (_run_iteration
           (snd (send (SendCommand 7 0x3FB999999999999A) false
                   (set_queue [] (_run 1 (WiredConnection__init__ (1 # 100) 1 2 []))))))
  = calls (set_queue [] (_run 1 (WiredConnection__init__ (1 # 100) 1 2 [])))
    ++ [SendData [xee; xaf; x07; x3d; xcc; xcc; xcd]]
  /\ calls (_run_iteration
              (_run 1 (__init__ (1 # 100) [Some [xee; xaf; x07; x3d; xcc; xcc; xcd]])))
     = calls (_run 1 (__init__ (1 # 100) [Some [xee; xaf; x07; x3d; xcc; xcc; xcd]]))
       ++ [OnCommandPayload 7 0x3FB99999A0000000].
Proof.
  apply (@sent_frame_is_delivered unit WiredConnection _ ScriptedLink
           (set_queue [] (_run 1 (WiredConnection__init__ (1 # 100) 1 2 [])))
           (_run 1 (__init__ (1 # 100) [Some [xee; xaf; x07; x3d; xcc; xcc; xcd]]))
           (SendCommand 7 0x3FB999999999999A) [xee; xaf; x07; x3d; xcc; xcc; xcd] false []);
    try reflexivity.
  exact wired_link_is_idle.
Defined.

(** ** A peer that never stops talking *)

Section BusyLink.

Context {T : Type} `{Transport T}.

Lemma receiving_turn_effect (c : Connection T) :
  probe_has_data c = true ->
  _queue (_run_iteration c) = _queue c
  /\ filter is_send (calls (_run_iteration c)) = filter is_send (calls c).
Proof.
  unfold probe_has_data. intros Hdata.
  destruct (_check (link c)) as [[e | [[|b rest]|]] l] eqn:Hprobe;
    try discriminate Hdata.
  destruct (task_state_cases c) as [Hst | Hst].
  - destruct (run_iteration_fields c Hst) as (-> & -> & _).
    rewrite (tick_with_data c (b :: rest) l Hprobe) by discriminate.
    destruct (handle_data_effect (b :: rest) (set_link l c))
      as (new & Hcalls & _ & Hsend & Hq & _).
    rewrite Hcalls, Hq, filter_app, (existsb_false_filter _ _ Hsend), app_nil_r.
    split; reflexivity.
  - destruct (run_iteration_idle_task c Hst) as (-> & -> & _). split; reflexivity.
Qed.

End BusyLink.

(** X16.  As long as every turn's probe reports data, nothing is sent: over
    [n] such turns the queue stays exactly as it was and the transport's
    send is never called, however long the backlog. *)
Theorem busy_link_starves_the_queue :
  forall (T : Type) (H : Transport T) (n : nat) (c : Connection T),
    (forall k : nat, (k < n)%nat -> probe_has_data (_run k c) = true) ->
    _queue (_run n c) = _queue c
    /\ filter is_send (calls (_run n c)) = filter is_send (calls c).
Proof.
  intros T H n. induction n as [|n IH]; intros c Hbusy; [split; reflexivity |].
  cbn [_run].
  destruct (receiving_turn_effect c (Hbusy 0%nat ltac:(lia))) as [Hq Hcalls].
  destruct (IH (_run_iteration c)) as [Hq' Hcalls'].
  - intros k Hk. exact (Hbusy (S k) ltac:(lia)).
  - rewrite Hq', Hcalls', Hq, Hcalls. split; reflexivity.
Qed.

Lemma busy_link_starves_the_queue_witness :
  _queue (_run 2 (set_queue [[x01]; [x02]]
                    (_run 1 (__init__ (1 # 100) [Some [xee; xae; x09]; Some [x00; x00]; None]))))
  = _queue (set_queue [[x01]; [x02]]
              (_run 1 (__init__ (1 # 100) [Some [xee; xae; x09]; Some [x00; x00]; None])))
  /\ filter is_send
       (calls (_run 2 (set_queue [[x01]; [x02]]
                         (__init__ (1 # 100)
                            [Some [xee; xae; x09]; Some [x00; x00]; None]))))
     = filter is_send
         (calls (set_queue [[x01]; [x02]]
                   (_run 1 (__init__ (1 # 100) [Some [xee; xae; x09]; Some [x00; x00]; None])))).
Proof.
  apply (@busy_link_starves_the_queue _ ScriptedLink 2%nat
           (set_queue [[x01]; [x02]]
              (_run 1 (__init__ (1 # 100) [Some [xee; xae; x09]; Some [x00; x00]; None])))).
  intros k Hk. destruct k as [|[|k]]; [reflexivity | reflexivity | lia].
Defined.
